(** * The Pyright VS Code client: registry of language clients

    A shallow embedding of [client/src/extension.ts].  The extension keeps a
    module-level [Map<string, LanguageClient>] named [clients]; [activate]
    either starts one client eagerly or registers listeners that start one
    client per workspace folder on demand, and [deactivate] stops every
    client held by the map.

    The embedding threads an explicit [State] (the map, the client objects,
    the context's subscriptions, the registered listeners and the list of
    calls made so far) through a small state monad. *)

From stdpp Require Import base strings list.
From Stdlib Require Import Lia.

(** ** The JavaScript [Map] with string keys

    A JavaScript [Map] remembers insertion order, and [values()] iterates in
    that order: [set] on a present key replaces the value in place, [set] on
    an absent key appends, [delete] removes the entry. *)

Module JSMap.

Definition t (V : Type) : Type := list (string * V).

Section operations.
Context {V : Type}.

Definition empty : t V := [].

Fixpoint get (k : string) (m : t V) : option V :=
  match m with
  | [] => None
  | (k', v) :: m' => if decide (k' = k) then Some v else get k m'
  end.

Definition has (k : string) (m : t V) : bool :=
  match get k m with Some _ => true | None => false end.

Fixpoint set (k : string) (v : V) (m : t V) : t V :=
  match m with
  | [] => [(k, v)]
  | (k', v') :: m' =>
      if decide (k' = k) then (k, v) :: m' else (k', v') :: set k v m'
  end.

Fixpoint delete (k : string) (m : t V) : t V :=
  match m with
  | [] => []
  | (k', v') :: m' =>
      if decide (k' = k) then delete k m' else (k', v') :: delete k m'
  end.

Definition keys (m : t V) : list string := m.*1.
Definition values (m : t V) : list V := m.*2.
Definition size (m : t V) : nat := length m.

End operations.
End JSMap.

(** ** Values of the vscode API that the extension reads *)

(** [toString] is the result of [uri.toString()], the string the registry
    is keyed by. *)
Record Uri := {
  scheme : string;
  fsPath : string;
  toString : string }.

Record WorkspaceFolder := {
  wf_uri : Uri;
  wf_name : string;
  wf_index : nat }.

Record TextDocument := {
  languageId : string;
  uri : Uri }.

(** A snapshot of the [workspace] namespace: what its properties and
    [getWorkspaceFolder] answer at the moment the extension asks. *)
Record Workspace := {
  workspaceFolders : option (list WorkspaceFolder);
  textDocuments : list TextDocument;
  rootPath : option string;
  getWorkspaceFolder : Uri → option WorkspaceFolder }.

Record WorkspaceFoldersChangeEvent := {
  added : list WorkspaceFolder;
  removed : list WorkspaceFolder }.

Record OutputChannel := { channel_name : string }.

Record ExtensionContext := { asAbsolutePath : string → string }.

(** ** Values of vscode-languageclient *)

Inductive TransportKind := stdio | ipc | pipe | socket.

Record ForkOptions := { execArgv : list string }.

Record NodeModule := {
  module_path : string;
  transport : TransportKind;
  options : option ForkOptions }.

Record ServerOptions := {
  run : NodeModule;
  debug : NodeModule }.

Record DocumentFilter := {
  filter_scheme : string;
  filter_language : string;
  filter_pattern : option string }.

Record LanguageClientOptions := {
  documentSelector : list DocumentFilter;
  configurationSection : string;
  workspaceFolder : option WorkspaceFolder;
  outputChannel : OutputChannel }.

(** The life of a client object.  The extension drives it with the
    constructor, which leaves it [Initial], with [start()], which makes it
    [Starting], and with [stop()], which makes it [Stopping].  The library
    moves it on its own when the server answers the handshake ([Running],
    also when [stop()] was called in the meantime), when the shutdown that
    [stop()] began completes ([Stopped]) and when the server process ends or
    fails to start without having been asked ([Stopped]). *)
Inductive ClientState := Initial | Starting | Running | Stopping | Stopped.

Record LanguageClient := {
  client_id : string;
  client_name : string;
  client_serverOptions : ServerOptions;
  client_options : LanguageClientOptions;
  client_state : ClientState }.

Global Instance ClientState_eq_dec : EqDecision ClientState.
Proof. solve_decision. Defined.

(** Client objects live in [heap]; a reference to one is its index. *)
Abbreviation ClientId := nat.

Inductive Disposable :=
| ClientDisposable (c : ClientId)
| ProgressReporting (c : ClientId).

(** A promise that settles once [stop()] has completed on every client it
    awaits. *)
Record Thenable := { awaits : list ClientId }.

(** The listeners [activate] can register, with the variables they close
    over. *)
Inductive Listener :=
| RunLanguageClientOnDemand (serverOptions : ServerOptions) (outputChannel : OutputChannel)
| StopRemovedFolders.

(** Calls that leave a trace, in the order they are made. *)
Inductive Call :=
| CreateOutputChannel (name : string)
| NewLanguageClient (c : ClientId)
| ClientStart (c : ClientId)
| NewProgressReporting (c : ClientId)
| SubscriptionsPush (d : Disposable)
| ClientsSet (k : string) (c : ClientId)
| ClientsDelete (k : string)
| ClientStop (c : ClientId)
| AddListener (l : Listener).

(** ** State *)

Record State := {
  clients : JSMap.t ClientId;
  heap : list LanguageClient;
  subscriptions : list Disposable;
  listeners : list Listener;
  calls : list Call }.

Definition initial_state : State :=
  {| clients := JSMap.empty; heap := []; subscriptions := [];
     listeners := []; calls := [] |}.

Definition with_clients (m : JSMap.t ClientId) (s : State) : State :=
  {| clients := m; heap := heap s; subscriptions := subscriptions s;
     listeners := listeners s; calls := calls s |}.

Definition with_heap (h : list LanguageClient) (s : State) : State :=
  {| clients := clients s; heap := h; subscriptions := subscriptions s;
     listeners := listeners s; calls := calls s |}.

Definition with_subscriptions (d : list Disposable) (s : State) : State :=
  {| clients := clients s; heap := heap s; subscriptions := d;
     listeners := listeners s; calls := calls s |}.

Definition with_listeners (l : list Listener) (s : State) : State :=
  {| clients := clients s; heap := heap s; subscriptions := subscriptions s;
     listeners := l; calls := calls s |}.

Definition with_calls (c : list Call) (s : State) : State :=
  {| clients := clients s; heap := heap s; subscriptions := subscriptions s;
     listeners := listeners s; calls := c |}.

(** ** The state monad *)

Definition M (A : Type) : Type := State → A * State.

Global Instance M_ret : MRet M := λ A (a : A) s, (a, s).
Global Instance M_bind : MBind M :=
  λ A B (f : A → M B) (m : M A) s, let (a, s') := m s in f a s'.

Definition exec {A} (m : M A) (s : State) : State := (m s).2.

Definition call (c : Call) : M unit :=
  λ s, (tt, with_calls (calls s ++ [c]) s).

Fixpoint forEach {A} (f : A → M unit) (l : list A) : M unit :=
  match l with
  | [] => mret tt
  | x :: l' => f x;; forEach f l'
  end.

(** ** Primitive operations *)

(** [Window.createOutputChannel(name)] *)
Definition createOutputChannel (name : string) : M OutputChannel :=
  call (CreateOutputChannel name);;
  mret {| channel_name := name |}.

(** [new LanguageClient(id, name, serverOptions, clientOptions)] *)
Definition new_LanguageClient (id name : string) (serverOptions : ServerOptions)
    (clientOptions : LanguageClientOptions) : M ClientId :=
  λ s,
    let c := length (heap s) in
    let obj := {| client_id := id; client_name := name;
                  client_serverOptions := serverOptions;
                  client_options := clientOptions;
                  client_state := Initial |} in
    (c, with_calls (calls s ++ [NewLanguageClient c]) (with_heap (heap s ++ [obj]) s)).

Definition set_state (st : ClientState) (x : LanguageClient) : LanguageClient :=
  {| client_id := client_id x; client_name := client_name x;
     client_serverOptions := client_serverOptions x;
     client_options := client_options x;
     client_state := st |}.

Definition on_start (x : LanguageClient) : LanguageClient :=
  match client_state x with
  | Initial => set_state Starting x
  | _ => x
  end.

Definition on_stop (x : LanguageClient) : LanguageClient :=
  match client_state x with
  | Starting | Running => set_state Stopping x
  | _ => x
  end.

(** The handshake is answered: the library sets [Running], whether or not
    [stop()] was called while the client was starting. *)
Definition on_ready (x : LanguageClient) : LanguageClient :=
  match client_state x with
  | Starting | Stopping => set_state Running x
  | _ => x
  end.

(** The shutdown begun by [stop()] completes; the client may have been set
    [Running] by a late answer to the handshake. *)
Definition on_stopped (x : LanguageClient) : LanguageClient :=
  match client_state x with
  | Stopping | Running => set_state Stopped x
  | _ => x
  end.

(** The server process ends, or fails to start, without [stop()]. *)
Definition on_closed (x : LanguageClient) : LanguageClient :=
  match client_state x with
  | Starting | Running => set_state Stopped x
  | _ => x
  end.

(** [languageClient.start()] *)
Definition start (c : ClientId) : M Disposable :=
  λ s, (ClientDisposable c,
        with_calls (calls s ++ [ClientStart c]) (with_heap (alter on_start c (heap s)) s)).

(** [client.stop()]: the request is issued at once, the returned promise
    settles later. *)
Definition stop (c : ClientId) : M Thenable :=
  λ s, ({| awaits := [c] |},
        with_calls (calls s ++ [ClientStop c]) (with_heap (alter on_stop c (heap s)) s)).

(** [new ProgressReporting(languageClient)], of [./progress]: only the
    object's identity matters here. *)
Definition new_ProgressReporting (c : ClientId) : M Disposable :=
  call (NewProgressReporting c);;
  mret (ProgressReporting c).

(** [context.subscriptions.push(d)] *)
Definition subscriptions_push (d : Disposable) : M unit :=
  λ s, (tt, with_calls (calls s ++ [SubscriptionsPush d])
              (with_subscriptions (subscriptions s ++ [d]) s)).

Definition clients_has (k : string) : M bool :=
  λ s, (JSMap.has k (clients s), s).

Definition clients_get (k : string) : M (option ClientId) :=
  λ s, (JSMap.get k (clients s), s).

Definition clients_set (k : string) (c : ClientId) : M unit :=
  λ s, (tt, with_calls (calls s ++ [ClientsSet k c])
              (with_clients (JSMap.set k c (clients s)) s)).

Definition clients_delete (k : string) : M unit :=
  λ s, (tt, with_calls (calls s ++ [ClientsDelete k])
              (with_clients (JSMap.delete k (clients s)) s)).

Definition clients_values : M (list ClientId) :=
  λ s, (JSMap.values (clients s), s).

(** [Workspace.onDidOpenTextDocument(l)] and
    [Workspace.onDidChangeWorkspaceFolders(l)] *)
Definition addListener (l : Listener) : M unit :=
  λ s, (tt, with_calls (calls s ++ [AddListener l])
              (with_listeners (listeners s ++ [l]) s)).

(** [Promise.all(promises)] *)
Definition Promise_all (promises : list Thenable) : Thenable :=
  {| awaits := concat (awaits <$> promises) |}.

(** [path.join(a, b)] with the POSIX separator. *)
Definition path_join (a b : string) : string := a +:+ "/" +:+ b.

(** ** extension.ts *)

Definition runLanguageClient (serverOptions : ServerOptions)
    (clientOptions : LanguageClientOptions) : M ClientId :=
  languageClient ← new_LanguageClient "python" "Pyright" serverOptions clientOptions;
  disposable ← start languageClient;
  subscriptions_push disposable;;
  progressReporting ← new_ProgressReporting languageClient;
  subscriptions_push progressReporting;;
  mret languageClient.

(** The guard [document.languageId === 'python' && document.uri.scheme === 'file']. *)
Definition qualifies (document : TextDocument) : bool :=
  String.eqb (languageId document) "python" && String.eqb (scheme (uri document)) "file".

Definition runLanguageClientOnDemand (serverOptions : ServerOptions)
    (outputChannel : OutputChannel) (W : Workspace) (document : TextDocument) : M unit :=
  if negb (qualifies document) then mret tt
  else
    match getWorkspaceFolder W (uri document) with
    | None => mret tt
    | Some folder =>
        present ← clients_has (toString (wf_uri folder));
        if present : bool then mret tt
        else
          let clientOptions :=
            {| documentSelector :=
                 [ {| filter_scheme := "file";
                      filter_language := "python";
                      filter_pattern := Some (fsPath (wf_uri folder) +:+ "/**/*") |} ];
               configurationSection := "python";
               workspaceFolder := Some folder;
               outputChannel := outputChannel |} in
          languageClient ← runLanguageClient serverOptions clientOptions;
          clients_set (toString (wf_uri folder)) languageClient
    end.

(** The body of [for (let folder of event.removed)]. *)
Definition stopRemovedFolder (folder : WorkspaceFolder) : M unit :=
  client ← clients_get (toString (wf_uri folder));
  match client with
  | Some client =>
      clients_delete (toString (wf_uri folder));;
      stop client;;
      mret tt
  | None => mret tt
  end.

Definition stopRemovedFolders (event : WorkspaceFoldersChangeEvent) : M unit :=
  forEach stopRemovedFolder (removed event).

(** [Workspace.workspaceFolders && Workspace.workspaceFolders.length > 1] *)
Definition multi_root (W : Workspace) : bool :=
  match workspaceFolders W with
  | Some folders => 1 <? length folders
  | None => false
  end.

(** [Workspace.rootPath || '/']: an absent or empty root path is falsy. *)
Definition rootPath_or_slash (W : Workspace) : string :=
  match rootPath W with
  | Some p => if String.eqb p "" then "/" else p
  | None => "/"
  end.

Definition activate (context : ExtensionContext) (W : Workspace) : M unit :=
  outputChannel ← createOutputChannel "pyright";
  let serverModule := asAbsolutePath context (path_join "server" "server.js") in
  let debugOptions := {| execArgv := ["--nolazy"; "--inspect=6600"] |} in
  let serverOptions :=
    {| run := {| module_path := serverModule; transport := ipc; options := None |};
       debug := {| module_path := serverModule; transport := ipc;
                   options := Some debugOptions |} |} in
  if multi_root W then
    addListener (RunLanguageClientOnDemand serverOptions outputChannel);;
    forEach (runLanguageClientOnDemand serverOptions outputChannel W) (textDocuments W);;
    addListener StopRemovedFolders
  else
    languageClient ← runLanguageClient serverOptions
      {| documentSelector :=
           [ {| filter_scheme := "file";
                filter_language := "python";
                filter_pattern := None |} ];
         configurationSection := "python";
         workspaceFolder := None;
         outputChannel := outputChannel |};
    clients_set (rootPath_or_slash W) languageClient.

Fixpoint stop_each (cs : list ClientId) (promises : list Thenable) : M (list Thenable) :=
  match cs with
  | [] => mret promises
  | client :: cs' => p ← stop client; stop_each cs' (promises ++ [p])
  end.

Definition deactivate : M Thenable :=
  cs ← clients_values;
  promises ← stop_each cs [];
  mret (Promise_all promises).

(** ** Events delivered by the host and by the server processes *)

Inductive Event :=
| DidOpenTextDocument (W : Workspace) (document : TextDocument)
| DidChangeWorkspaceFolders (event : WorkspaceFoldersChangeEvent)
| ServerReady (c : ClientId)
| ServerStopped (c : ClientId)
| ServerClosed (c : ClientId)
| Deactivate.

(** What one registered listener does with one event. *)
Definition notify (e : Event) (l : Listener) : M unit :=
  match l, e with
  | RunLanguageClientOnDemand serverOptions outputChannel, DidOpenTextDocument W document =>
      runLanguageClientOnDemand serverOptions outputChannel W document
  | StopRemovedFolders, DidChangeWorkspaceFolders event =>
      stopRemovedFolders event
  | _, _ => mret tt
  end.

Definition step (e : Event) (s : State) : State :=
  match e with
  | ServerReady c => with_heap (alter on_ready c (heap s)) s
  | ServerStopped c => with_heap (alter on_stopped c (heap s)) s
  | ServerClosed c => with_heap (alter on_closed c (heap s)) s
  | Deactivate => exec deactivate s
  | _ => exec (forEach (notify e) (listeners s)) s
  end.

Definition deliver (es : list Event) (s : State) : State :=
  foldl (λ s e, step e s) s es.

(** The state right after [activate] returned. *)
Definition activated (context : ExtensionContext) (W : Workspace) : State :=
  exec (activate context W) initial_state.

(** A promise has settled when every stop it awaits has completed. *)
Definition settled (p : Thenable) (s : State) : bool :=
  forallb (λ c, match heap s !! c with
                | Some x => bool_decide (client_state x = Stopped)
                | None => false
                end) (awaits p).

(** ** Vocabulary of the properties *)

(** The registry key a client was created for: its workspace folder's URI. *)
Definition root_of (x : LanguageClient) : option string :=
  (λ folder, toString (wf_uri folder)) <$> workspaceFolder (client_options x).

Definition active (x : LanguageClient) : Prop :=
  client_state x = Starting ∨ client_state x = Running.

Definition state_of (c : ClientId) (s : State) : option ClientState :=
  client_state <$> heap s !! c.

(** The key an event is about, if any. *)
Definition key_of_document (W : Workspace) (document : TextDocument) : option string :=
  (λ folder, toString (wf_uri folder)) <$> getWorkspaceFolder W (uri document).

(** The entry under [k], and the client object it holds, are the same in
    [s'] as in [s]. *)
Definition entry_unchanged (k : string) (s s' : State) : Prop :=
  JSMap.get k (clients s') = JSMap.get k (clients s) ∧
  ∀ c, JSMap.get k (clients s) = Some c → heap s' !! c = heap s !! c.

Definition removed_keys (event : WorkspaceFoldersChangeEvent) : list string :=
  (λ folder, toString (wf_uri folder)) <$> removed event.

Definition is_server_event (e : Event) : bool :=
  match e with
  | ServerReady _ | ServerStopped _ | ServerClosed _ => true
  | _ => false
  end.

(** The registry as the calls [clients.set] and [clients.delete] of a log
    build it. *)
Fixpoint replay (m : JSMap.t ClientId) (log : list Call) : JSMap.t ClientId :=
  match log with
  | [] => m
  | ClientsSet k c :: rest => replay (JSMap.set k c m) rest
  | ClientsDelete k :: rest => replay (JSMap.delete k m) rest
  | _ :: rest => replay m rest
  end.

(** Every [clients.delete(k)] of the log removes an entry that exists, and
    the very next call is [stop()] on the client that entry held. *)
Fixpoint delete_then_stop (m : JSMap.t ClientId) (log : list Call) : bool :=
  match log with
  | [] => true
  | ClientsSet k c :: rest => delete_then_stop (JSMap.set k c m) rest
  | ClientsDelete k :: rest =>
      match JSMap.get k m, rest with
      | Some c, ClientStop c' :: rest' =>
          bool_decide (c = c') && delete_then_stop (JSMap.delete k m) rest'
      | _, _ => false
      end
  | _ :: rest => delete_then_stop m rest
  end.

(** Every [clients.delete(k)] of the log removes an entry whose client has
    been asked to stop earlier in the log ([asked] collects the clients
    asked so far). *)
Fixpoint stop_then_delete (m : JSMap.t ClientId) (asked : list ClientId)
    (log : list Call) : bool :=
  match log with
  | [] => true
  | ClientsSet k c :: rest => stop_then_delete (JSMap.set k c m) asked rest
  | ClientStop c :: rest => stop_then_delete m (c :: asked) rest
  | ClientsDelete k :: rest =>
      match JSMap.get k m with
      | Some c => bool_decide (c ∈ asked) && stop_then_delete (JSMap.delete k m) asked rest
      | None => stop_then_delete m asked rest
      end
  | _ :: rest => stop_then_delete m asked rest
  end.

(** Event [e], arriving in state [s], creates a client for a folder only if
    every client created earlier for that folder has completed its stop. *)
Definition restart_waits (s : State) (e : Event) : Prop :=
  ∀ c x c' x',
    heap s !! c = Some x →
    heap s !! c' = None → heap (step e s) !! c' = Some x' →
    is_Some (root_of x) → root_of x = root_of x' →
    client_state x = Stopped.

(** The calls of a state are a log in which every delete is followed by
    its stop, and they build the registry of that state. *)
Definition trace_ok (s : State) : Prop :=
  delete_then_stop JSMap.empty (calls s) = true ∧
  replay JSMap.empty (calls s) = clients s.

(** The registry, the client objects and the log of calls agree: keys are
    unique, every entry holds the client created for that key, and every
    client either has been asked to stop or is the one registered under its
    workspace folder. *)
Record coherent (m : JSMap.t ClientId) (h : list LanguageClient)
    (log : list Call) : Prop := {
  inv_keys : NoDup (JSMap.keys m);
  inv_entry : ∀ k c, JSMap.get k m = Some c →
              ∃ x, h !! c = Some x ∧ root_of x = Some k;
  inv_unstopped : ∀ c x, h !! c = Some x →
                  ClientStop c ∈ log ∨
                  ∃ k, root_of x = Some k ∧ JSMap.get k m = Some c }.

Definition registry_inv (s : State) : Prop :=
  coherent (clients s) (heap s) (calls s).

(** The client object [runLanguageClient] leaves in the heap. *)
Definition started_client (serverOptions : ServerOptions)
    (clientOptions : LanguageClientOptions) : LanguageClient :=
  {| client_id := "python"; client_name := "Pyright";
     client_serverOptions := serverOptions;
     client_options := clientOptions;
     client_state := Starting |}.

Definition onDemand_options (outputChannel : OutputChannel) (folder : WorkspaceFolder)
  : LanguageClientOptions :=
  {| documentSelector :=
       [ {| filter_scheme := "file"; filter_language := "python";
            filter_pattern := Some (fsPath (wf_uri folder) +:+ "/**/*") |} ];
     configurationSection := "python";
     workspaceFolder := Some folder;
     outputChannel := outputChannel |}.

(** The state [runLanguageClientOnDemand] produces when it does create a
    client for [folder]. *)
Definition client_added (so : ServerOptions) (oc : OutputChannel)
    (folder : WorkspaceFolder) (s : State) : State :=
  let c := length (heap s) in
  {| clients := JSMap.set (toString (wf_uri folder)) c (clients s);
     heap := heap s ++ [started_client so (onDemand_options oc folder)];
     subscriptions := subscriptions s ++ [ClientDisposable c; ProgressReporting c];
     listeners := listeners s;
     calls := calls s ++
       [NewLanguageClient c; ClientStart c; SubscriptionsPush (ClientDisposable c);
        NewProgressReporting c; SubscriptionsPush (ProgressReporting c);
        ClientsSet (toString (wf_uri folder)) c] |}.

(** The state [stopRemovedFolder] produces when the folder has client [c]. *)
Definition client_removed (k : string) (c : ClientId) (s : State) : State :=
  {| clients := JSMap.delete k (clients s);
     heap := alter on_stop c (heap s);
     subscriptions := subscriptions s;
     listeners := listeners s;
     calls := calls s ++ [ClientsDelete k; ClientStop c] |}.

(** ** The state after activation *)

Definition serverOptions_of (context : ExtensionContext) : ServerOptions :=
  let serverModule := asAbsolutePath context (path_join "server" "server.js") in
  {| run := {| module_path := serverModule; transport := ipc; options := None |};
     debug := {| module_path := serverModule; transport := ipc;
                 options := Some {| execArgv := ["--nolazy"; "--inspect=6600"] |} |} |}.

Definition pyright_channel : OutputChannel := {| channel_name := "pyright" |}.

Definition single_options : LanguageClientOptions :=
  {| documentSelector :=
       [ {| filter_scheme := "file"; filter_language := "python";
            filter_pattern := None |} ];
     configurationSection := "python";
     workspaceFolder := None;
     outputChannel := pyright_channel |}.

(** The state in which the scan of the already open documents starts. *)
Definition before_scan (context : ExtensionContext) : State :=
  {| clients := JSMap.empty; heap := []; subscriptions := [];
     listeners := [RunLanguageClientOnDemand (serverOptions_of context) pyright_channel];
     calls := [CreateOutputChannel "pyright";
               AddListener (RunLanguageClientOnDemand (serverOptions_of context) pyright_channel)] |}.

Definition after_scan (context : ExtensionContext) (W : Workspace) : State :=
  exec (forEach (runLanguageClientOnDemand (serverOptions_of context) pyright_channel W)
          (textDocuments W))
       (before_scan context).

(** ** Vocabulary of further properties *)

(** What [context.subscriptions] holds once clients [0 .. n-1] have been
    created: for each, the disposable of its [start()] and its progress
    reporter. *)
Definition expected_subscriptions (n : nat) : list Disposable :=
  concat ((λ c, [ClientDisposable c; ProgressReporting c]) <$> seq 0 n).

Definition is_deactivate (e : Event) : bool :=
  match e with
  | Deactivate => true
  | _ => false
  end.

(** The listeners [activate] registers for a workspace. *)
Definition listeners_of (context : ExtensionContext) (W : Workspace) : list Listener :=
  if multi_root W
  then [RunLanguageClientOnDemand (serverOptions_of context) pyright_channel;
        StopRemovedFolders]
  else [].

(** The client options [activate] can give a client for a workspace. *)
Definition options_of_mode (W : Workspace) (co : LanguageClientOptions) : Prop :=
  if multi_root W
  then ∃ folder, co = onDemand_options pyright_channel folder
  else co = single_options.

(** [x] is a client that [runLanguageClient] created with server options
    [so] and client options among [opts], in whatever state it is now. *)
Definition made_by (so : ServerOptions) (opts : LanguageClientOptions → Prop)
    (x : LanguageClient) : Prop :=
  ∃ co st, opts co ∧ st ≠ Initial ∧ x = set_state st (started_client so co).

(** No entry of the registry holds a client that has been asked to stop. *)
Definition entries_unstopped (s : State) : Prop :=
  ∀ k c, JSMap.get k (clients s) = Some c → ClientStop c ∉ calls s.

(** Only clients that exist have been asked to stop. *)
Definition stops_known (s : State) : Prop :=
  ∀ c, ClientStop c ∈ calls s → c < length (heap s).

(** Every client object of heap [h] is still there in [h'], under the same
    reference and with the options it was created with. *)
Definition objects_kept (h h' : list LanguageClient) : Prop :=
  ∀ c x, h !! c = Some x →
         ∃ x', h' !! c = Some x' ∧
               client_options x' = client_options x ∧
               client_serverOptions x' = client_serverOptions x.

(** No entry holds a client asked to stop, the listeners are those of the
    mode, and in multi-root mode the registry and the clients agree. *)
Definition live_inv (context : ExtensionContext) (W : Workspace) (s : State) : Prop :=
  entries_unstopped s ∧
  stops_known s ∧
  listeners s = listeners_of context W ∧
  (multi_root W = true → registry_inv s).

Definition subscriptions_inv (s : State) : Prop :=
  subscriptions s = expected_subscriptions (length (heap s)).

(** Every client was created by [activate]'s closures for this workspace,
    and the listeners are the ones [activate] registered. *)
Definition configured (context : ExtensionContext) (W : Workspace) (s : State) : Prop :=
  listeners s = listeners_of context W ∧
  ∀ c x, heap s !! c = Some x →
         made_by (serverOptions_of context) (options_of_mode W) x.

(** One client per entry, all of them starting. *)
Definition freshly_scanned (s : State) : Prop :=
  length (heap s) = JSMap.size (clients s) ∧
  ∀ c x, heap s !! c = Some x → client_state x = Starting.

(** ** Example inputs *)

Module Example.

Definition context : ExtensionContext :=
  {| asAbsolutePath := λ p, "/ext/" +:+ p |}.

Definition R1 : WorkspaceFolder :=
  {| wf_uri := {| scheme := "file"; fsPath := "/w/r1"; toString := "file:///w/r1" |};
     wf_name := "r1"; wf_index := 0 |}.

Definition R2 : WorkspaceFolder :=
  {| wf_uri := {| scheme := "file"; fsPath := "/w/r2"; toString := "file:///w/r2" |};
     wf_name := "r2"; wf_index := 1 |}.

Definition in_folders (folders : list WorkspaceFolder) (u : Uri) : option WorkspaceFolder :=
  List.find (λ folder, String.prefix (fsPath (wf_uri folder) +:+ "/") (fsPath u)) folders.

(** Two workspace folders, no document open. *)
Definition two_roots : Workspace :=
  {| workspaceFolders := Some [R1; R2];
     textDocuments := [];
     rootPath := Some "/w/r1";
     getWorkspaceFolder := in_folders [R1; R2] |}.

(** One workspace folder. *)
Definition one_root : Workspace :=
  {| workspaceFolders := Some [R1];
     textDocuments := [];
     rootPath := Some "/w/r1";
     getWorkspaceFolder := in_folders [R1] |}.

(** No folder at all. *)
Definition no_root : Workspace :=
  {| workspaceFolders := None;
     textDocuments := [];
     rootPath := None;
     getWorkspaceFolder := in_folders [] |}.

Definition a_py : TextDocument :=
  {| languageId := "python";
     uri := {| scheme := "file"; fsPath := "/w/r1/a.py"; toString := "file:///w/r1/a.py" |} |}.

Definition b_py : TextDocument :=
  {| languageId := "python";
     uri := {| scheme := "file"; fsPath := "/w/r2/b.py"; toString := "file:///w/r2/b.py" |} |}.

(** A Python file outside every workspace folder. *)
Definition stray_py : TextDocument :=
  {| languageId := "python";
     uri := {| scheme := "file"; fsPath := "/tmp/s.py"; toString := "file:///tmp/s.py" |} |}.

Definition readme : TextDocument :=
  {| languageId := "markdown";
     uri := {| scheme := "file"; fsPath := "/w/r1/README.md";
               toString := "file:///w/r1/README.md" |} |}.

Definition remove_R1 : WorkspaceFoldersChangeEvent :=
  {| added := []; removed := [R1] |}.

Definition add_R1 : WorkspaceFoldersChangeEvent :=
  {| added := [R1]; removed := [] |}.

Definition add_R2 : WorkspaceFoldersChangeEvent :=
  {| added := [R2]; removed := [] |}.

(** Open a file of R1, remove R1, add it again, open the file again. *)
Definition reopen : list Event :=
  [DidOpenTextDocument two_roots a_py;
   DidChangeWorkspaceFolders remove_R1;
   DidChangeWorkspaceFolders add_R1;
   DidOpenTextDocument two_roots a_py].

(** Two workspace folders; a file of R1, a stray file, a README and a
    second file of R1 are open when the extension is activated. *)
Definition c_py : TextDocument :=
  {| languageId := "python";
     uri := {| scheme := "file"; fsPath := "/w/r1/c.py"; toString := "file:///w/r1/c.py" |} |}.

Definition opened : Workspace :=
  {| workspaceFolders := Some [R1; R2];
     textDocuments := [a_py; stray_py; readme; c_py];
     rootPath := Some "/w/r1";
     getWorkspaceFolder := in_folders [R1; R2] |}.

Definition remove_both : WorkspaceFoldersChangeEvent :=
  {| added := []; removed := [R1; R2] |}.

End Example.

(** * Facts about the JavaScript [Map] *)

Module JSMapFacts.
Import JSMap.
Section facts.
Context {V : Type}.
Implicit Types (m : t V) (k : string) (v : V).

Lemma has_get k m : has k m = true ↔ is_Some (get k m).
Proof.
  unfold has. destruct (get k m); split; intros H.
  - by eexists.
  - done.
  - done.
  - by destruct H.
Qed.

Lemma has_false_get k m : has k m = false ↔ get k m = None.
Proof. unfold has. by destruct (get k m). Qed.

Lemma get_None_keys k m : get k m = None ↔ k ∉ keys m.
Proof.
  unfold keys. induction m as [|[k' v] m IH]; simpl.
  - split; [intros _; apply not_elem_of_nil | done].
  - rewrite not_elem_of_cons. case_decide; subst.
    + split; [done | intros [? _]; done].
    + rewrite IH. split; [by intros ? | by intros [_ ?]].
Qed.

Lemma get_Some_elem k v m : get k m = Some v → (k, v) ∈ m.
Proof.
  induction m as [|[k' v'] m IH]; simpl; [done|].
  case_decide; subst.
  - intros [= ->]. apply list_elem_of_here.
  - intros H'. apply list_elem_of_further. auto.
Qed.

Lemma elem_get k v m : NoDup (keys m) → (k, v) ∈ m → get k m = Some v.
Proof.
  unfold keys. induction m as [|[k' v'] m IH]; simpl.
  - intros _ H. by apply elem_of_nil in H.
  - rewrite NoDup_cons. intros [Hk Hnd]. rewrite elem_of_cons.
    intros [[= -> ->] | Hin].
    + by rewrite decide_True.
    + rewrite decide_False; [auto|].
      intros ->. apply Hk. apply (list_elem_of_fmap_2 fst) in Hin. done.
Qed.

Lemma get_set_eq k v m : get k (set k v m) = Some v.
Proof.
  induction m as [|[k' v'] m IH]; simpl.
  - by rewrite decide_True.
  - case_decide; simpl; [by rewrite decide_True | by rewrite decide_False].
Qed.

Lemma get_set_ne k k' v m : k ≠ k' → get k' (set k v m) = get k' m.
Proof.
  intros Hne. induction m as [|[k0 v0] m IH]; simpl.
  - by rewrite decide_False.
  - case_decide; subst; simpl.
    + by rewrite !decide_False.
    + case_decide; [done | apply IH].
Qed.

Lemma set_absent k v m : get k m = None → set k v m = m ++ [(k, v)].
Proof.
  induction m as [|[k' v'] m IH]; simpl; [done|].
  case_decide; [done|]. intros H'. by rewrite IH.
Qed.

Lemma get_delete_eq k m : get k (delete k m) = None.
Proof.
  induction m as [|[k' v'] m IH]; simpl; [done|].
  case_decide; simpl; [done | by rewrite decide_False].
Qed.

Lemma get_delete_ne k k' m : k ≠ k' → get k' (delete k m) = get k' m.
Proof.
  intros Hne. induction m as [|[k0 v0] m IH]; simpl; [done|].
  case_decide; subst; simpl.
  - by rewrite decide_False.
  - case_decide; [done | apply IH].
Qed.

Lemma delete_absent k m : get k m = None → delete k m = m.
Proof.
  induction m as [|[k' v'] m IH]; simpl; [done|].
  case_decide; [done|]. intros H'. by rewrite IH.
Qed.

Lemma elem_of_delete k k' v m :
  (k', v) ∈ delete k m ↔ k' ≠ k ∧ (k', v) ∈ m.
Proof.
  induction m as [|[k0 v0] m IH]; simpl.
  - split; [intros H; by apply elem_of_nil in H | intros [_ H]; done].
  - case_decide; subst; rewrite ?elem_of_cons, IH.
    + split; [intros [? ?]; auto | intros [Hne [[= ? ?]|?]]; done].
    + split; [intros [[= -> ->]|[? ?]]; auto | intros [? [?|?]]; auto].
Qed.

Lemma keys_delete_NoDup k m : NoDup (keys m) → NoDup (keys (delete k m)).
Proof.
  unfold keys. induction m as [|[k' v'] m IH]; simpl; [done|].
  rewrite NoDup_cons. intros [Hk Hnd]. case_decide; [auto|].
  simpl. apply NoDup_cons. split; [|auto].
  intros Hin. apply Hk. apply list_elem_of_fmap in Hin as [[k0 v0] [-> Hin]].
  apply elem_of_delete in Hin as [_ Hin].
  by apply (list_elem_of_fmap_2 fst) in Hin.
Qed.

Lemma keys_set_present k v m : is_Some (get k m) → keys (set k v m) = keys m.
Proof.
  unfold keys. induction m as [|[k' v'] m IH]; simpl.
  - by intros [? ?].
  - case_decide; subst; csimpl; [done|]. intros H'. by rewrite IH.
Qed.

Lemma keys_set_NoDup k v m : NoDup (keys m) → NoDup (keys (set k v m)).
Proof.
  intros Hnd. destruct (get k m) as [v0|] eqn:Hget.
  - by rewrite keys_set_present.
  - rewrite set_absent by done. unfold keys in *. rewrite fmap_app. simpl.
    apply NoDup_app. split_and!; [done | | apply NoDup_singleton].
    intros k' Hin. rewrite list_elem_of_singleton. intros ->.
    by apply get_None_keys in Hget.
Qed.

End facts.
End JSMapFacts.

(** * Effect of each operation *)

Lemma runLanguageClient_effect so co s :
  runLanguageClient so co s =
  (length (heap s),
   {| clients := clients s;
      heap := heap s ++ [started_client so co];
      subscriptions := subscriptions s ++
        [ClientDisposable (length (heap s)); ProgressReporting (length (heap s))];
      listeners := listeners s;
      calls := calls s ++
        [NewLanguageClient (length (heap s)); ClientStart (length (heap s));
         SubscriptionsPush (ClientDisposable (length (heap s)));
         NewProgressReporting (length (heap s));
         SubscriptionsPush (ProgressReporting (length (heap s)))] |}).
Proof.
  unfold runLanguageClient, mbind, M_bind, mret, M_ret. simpl.
  f_equal. unfold with_calls, with_heap, with_subscriptions; simpl.
  rewrite <- (Nat.add_0_r (length (heap s))) at 1.
  rewrite alter_app_r. simpl.
  rewrite <- !app_assoc. simpl. reflexivity.
Qed.

Lemma State_eta s :
  {| clients := clients s; heap := heap s; subscriptions := subscriptions s;
     listeners := listeners s; calls := calls s |} = s.
Proof. by destruct s. Qed.

Lemma onDemand_not_qualifying so oc W d s :
  qualifies d = false → runLanguageClientOnDemand so oc W d s = (tt, s).
Proof. intros H. unfold runLanguageClientOnDemand. by rewrite H. Qed.

Lemma onDemand_no_folder so oc W d s :
  getWorkspaceFolder W (uri d) = None → runLanguageClientOnDemand so oc W d s = (tt, s).
Proof.
  intros H. unfold runLanguageClientOnDemand. rewrite H.
  by destruct (negb (qualifies d)).
Qed.

Lemma onDemand_present so oc W d folder s :
  getWorkspaceFolder W (uri d) = Some folder →
  JSMap.has (toString (wf_uri folder)) (clients s) = true →
  runLanguageClientOnDemand so oc W d s = (tt, s).
Proof.
  intros Hf Hhas. unfold runLanguageClientOnDemand. rewrite Hf.
  destruct (negb (qualifies d)); [done|].
  unfold mbind, M_bind, clients_has. by rewrite Hhas.
Qed.

Lemma onDemand_create so oc W d folder s :
  qualifies d = true →
  getWorkspaceFolder W (uri d) = Some folder →
  JSMap.has (toString (wf_uri folder)) (clients s) = false →
  runLanguageClientOnDemand so oc W d s = (tt, client_added so oc folder s).
Proof.
  intros Hq Hf Hhas. unfold runLanguageClientOnDemand. rewrite Hq, Hf. simpl.
  unfold mbind, M_bind, clients_has. rewrite Hhas.
  fold (onDemand_options oc folder).
  rewrite runLanguageClient_effect.
  unfold clients_set, client_added, with_calls, with_clients. simpl.
  by rewrite <- app_assoc.
Qed.

(** Every run of the listener ends in one of two ways. *)
Lemma onDemand_cases so oc W d s :
  exec (runLanguageClientOnDemand so oc W d) s = s ∨
  ∃ folder, qualifies d = true ∧
            getWorkspaceFolder W (uri d) = Some folder ∧
            JSMap.get (toString (wf_uri folder)) (clients s) = None ∧
            exec (runLanguageClientOnDemand so oc W d) s = client_added so oc folder s.
Proof.
  unfold exec. destruct (qualifies d) eqn:Hq.
  - destruct (getWorkspaceFolder W (uri d)) as [folder|] eqn:Hf.
    + destruct (JSMap.has (toString (wf_uri folder)) (clients s)) eqn:Hhas.
      * left. by rewrite (onDemand_present _ _ _ _ folder).
      * right. exists folder. split_and!; try done.
        -- by apply JSMapFacts.has_false_get.
        -- by rewrite (onDemand_create _ _ _ _ folder).
    + left. by rewrite onDemand_no_folder.
  - left. by rewrite onDemand_not_qualifying.
Qed.

Lemma stopRemovedFolder_absent folder s :
  JSMap.get (toString (wf_uri folder)) (clients s) = None →
  stopRemovedFolder folder s = (tt, s).
Proof.
  intros H. unfold stopRemovedFolder, mbind, M_bind, clients_get. by rewrite H.
Qed.

Lemma stopRemovedFolder_present folder c s :
  JSMap.get (toString (wf_uri folder)) (clients s) = Some c →
  stopRemovedFolder folder s = (tt, client_removed (toString (wf_uri folder)) c s).
Proof.
  intros H. unfold stopRemovedFolder, mbind, M_bind, clients_get. rewrite H.
  unfold client_removed, clients_delete, stop, with_calls, with_clients, with_heap. simpl.
  by rewrite <- app_assoc.
Qed.

Lemma stopRemovedFolder_cases folder s :
  (JSMap.get (toString (wf_uri folder)) (clients s) = None ∧
   exec (stopRemovedFolder folder) s = s) ∨
  ∃ c, JSMap.get (toString (wf_uri folder)) (clients s) = Some c ∧
       exec (stopRemovedFolder folder) s = client_removed (toString (wf_uri folder)) c s.
Proof.
  unfold exec. destruct (JSMap.get (toString (wf_uri folder)) (clients s)) as [c|] eqn:H.
  - right. exists c. by rewrite (stopRemovedFolder_present _ c).
  - left. by rewrite stopRemovedFolder_absent.
Qed.

Lemma exec_forEach_cons {A} (f : A → M unit) x l s :
  exec (forEach f (x :: l)) s = exec (forEach f l) (exec (f x) s).
Proof. unfold exec. simpl. unfold mbind, M_bind. by destruct (f x s). Qed.

Lemma exec_forEach_nil {A} (f : A → M unit) s : exec (forEach f []) s = s.
Proof. done. Qed.

(** A property kept by every call of the body is kept by the loop. *)
Lemma forEach_preserves {A} (P : State → Prop) (f : A → M unit) l :
  (∀ x s, P s → P (exec (f x) s)) → ∀ s, P s → P (exec (forEach f l) s).
Proof.
  intros Hf. induction l as [|x l IH]; intros s Hs.
  - done.
  - rewrite exec_forEach_cons. apply IH, Hf, Hs.
Qed.

Lemma stop_each_effect cs ps s :
  stop_each cs ps s =
  (ps ++ ((λ c, {| awaits := [c] |}) <$> cs),
   {| clients := clients s;
      heap := foldl (λ h c, alter on_stop c h) (heap s) cs;
      subscriptions := subscriptions s;
      listeners := listeners s;
      calls := calls s ++ (ClientStop <$> cs) |}).
Proof.
  revert ps s. induction cs as [|c cs IH]; intros ps s; simpl.
  - unfold mret, M_ret. by rewrite !app_nil_r, State_eta.
  - unfold mbind, M_bind, stop. rewrite IH. simpl.
    by rewrite <- !app_assoc.
Qed.

Lemma deactivate_effect s :
  deactivate s =
  ({| awaits := JSMap.values (clients s) |},
   {| clients := clients s;
      heap := foldl (λ h c, alter on_stop c h) (heap s) (JSMap.values (clients s));
      subscriptions := subscriptions s;
      listeners := listeners s;
      calls := calls s ++ (ClientStop <$> JSMap.values (clients s)) |}).
Proof.
  unfold deactivate, mbind, M_bind, clients_values. rewrite stop_each_effect.
  unfold mret, M_ret, Promise_all. simpl. do 2 f_equal.
  induction (JSMap.values (clients s)) as [|c cs IH]; [done|].
  csimpl. by rewrite IH.
Qed.

(** * The registry invariant *)

Lemma on_stop_not_active x : ¬ active (on_stop x).
Proof.
  unfold active, on_stop. destruct (client_state x) eqn:E; simpl; rewrite ?E;
    intros [?|?]; congruence.
Qed.

Lemma on_stop_root x : root_of (on_stop x) = root_of x.
Proof. unfold on_stop. by destruct (client_state x). Qed.

Lemma on_ready_root x : root_of (on_ready x) = root_of x.
Proof. unfold on_ready. by destruct (client_state x). Qed.

Lemma on_stopped_root x : root_of (on_stopped x) = root_of x.
Proof. unfold on_stopped. by destruct (client_state x). Qed.

Lemma on_closed_root x : root_of (on_closed x) = root_of x.
Proof. unfold on_closed. by destruct (client_state x). Qed.

Lemma coherent_empty log : coherent JSMap.empty [] log.
Proof.
  split.
  - apply NoDup_nil_2.
  - intros k c H. discriminate H.
  - intros c x H. discriminate H.
Qed.

Lemma coherent_alter f c m h log :
  (∀ x, root_of (f x) = root_of x) →
  coherent m h log → coherent m (alter f c h) log.
Proof.
  intros Hroot [Hk He Ha]. split; [done | |].
  - intros k c' Hget. destruct (He k c' Hget) as (x & Hx & Hr).
    destruct (decide (c = c')) as [->|Hne].
    + exists (f x). rewrite list_lookup_alter_eq, Hx. by rewrite Hroot.
    + exists x. by rewrite list_lookup_alter_ne.
  - intros c' x Hx. destruct (decide (c = c')) as [->|Hne].
    + rewrite list_lookup_alter_eq in Hx.
      destruct (h !! c') as [x0|] eqn:Hx0; [|done]. injection Hx as <-.
      destruct (Ha c' x0 Hx0) as [Hstop | (k & Hr & Hget)]; [by left|].
      right. exists k. by rewrite Hroot.
    + rewrite list_lookup_alter_ne in Hx by done. by apply Ha.
Qed.

Lemma coherent_log m h log log' :
  coherent m h log → coherent m h (log ++ log').
Proof.
  intros [Hk He Ha]. split; [done | done |].
  intros c x Hx. destruct (Ha c x Hx) as [Hstop | H]; [|by right].
  left. apply elem_of_app. by left.
Qed.

Lemma coherent_stop_all cs m h log :
  coherent m h log → coherent m (foldl (λ h c, alter on_stop c h) h cs) log.
Proof.
  revert h. induction cs as [|c cs IH]; intros h H; simpl; [done|].
  apply IH, coherent_alter; auto using on_stop_root.
Qed.

Lemma coherent_added so co k m h log log' :
  root_of (started_client so co) = Some k →
  JSMap.get k m = None →
  coherent m h log →
  coherent (JSMap.set k (length h) m) (h ++ [started_client so co]) (log ++ log').
Proof.
  intros Hroot Hnone [Hk He Ha]. split.
  - by apply JSMapFacts.keys_set_NoDup.
  - intros k' c Hget. destruct (decide (k = k')) as [<-|Hne].
    + rewrite JSMapFacts.get_set_eq in Hget. injection Hget as <-.
      exists (started_client so co). split; [|done].
      rewrite lookup_app_r by lia. by rewrite Nat.sub_diag.
    + rewrite JSMapFacts.get_set_ne in Hget by done.
      destruct (He k' c Hget) as (x & Hx & Hr).
      exists x. split; [by apply lookup_app_l_Some | done].
  - intros c x Hx. apply lookup_app_Some in Hx as [Hx | [Hlen Hx]].
    + destruct (Ha c x Hx) as [Hstop | (k' & Hr & Hget)].
      * left. apply elem_of_app. by left.
      * right. exists k'. split; [done|]. rewrite JSMapFacts.get_set_ne; [done|].
        intros ->. congruence.
    + destruct (c - length h) as [|n] eqn:Hn; [|by destruct n].
      injection Hx as <-. right. exists k. split; [done|].
      replace c with (length h) by lia. apply JSMapFacts.get_set_eq.
Qed.

Lemma coherent_removed k c m h log :
  JSMap.get k m = Some c →
  coherent m h log →
  coherent (JSMap.delete k m) (alter on_stop c h)
           (log ++ [ClientsDelete k; ClientStop c]).
Proof.
  intros Hget [Hk He Ha]. split.
  - by apply JSMapFacts.keys_delete_NoDup.
  - intros k' c' Hget'. destruct (decide (k = k')) as [<-|Hne].
    + by rewrite JSMapFacts.get_delete_eq in Hget'.
    + rewrite JSMapFacts.get_delete_ne in Hget' by done.
      destruct (He k' c' Hget') as (x' & Hx' & Hr').
      destruct (He k c Hget) as (x & Hx & Hr).
      exists x'. split; [|done]. rewrite list_lookup_alter_ne; [done|].
      intros ->. congruence.
  - intros c' x' Hx'. destruct (decide (c = c')) as [<-|Hne].
    + left. apply elem_of_app. right. apply elem_of_cons. right. apply list_elem_of_here.
    + rewrite list_lookup_alter_ne in Hx' by done.
      destruct (Ha c' x' Hx') as [Hstop | (k' & Hr' & Hget')].
      * left. apply elem_of_app. by left.
      * right. exists k'. split; [done|]. rewrite JSMapFacts.get_delete_ne; [done|].
        intros ->. congruence.
Qed.

Lemma onDemand_inv so oc W d s :
  registry_inv s → registry_inv (exec (runLanguageClientOnDemand so oc W d) s).
Proof.
  intros Hinv. destruct (onDemand_cases so oc W d s) as [-> | (folder & _ & _ & Hnone & ->)];
    [done|].
  unfold registry_inv, client_added; simpl. by apply coherent_added.
Qed.

Lemma stopRemovedFolder_inv folder s :
  registry_inv s → registry_inv (exec (stopRemovedFolder folder) s).
Proof.
  intros Hinv. destruct (stopRemovedFolder_cases folder s) as [[_ ->] | (c & Hget & ->)];
    [done|].
  unfold registry_inv, client_removed; simpl. by apply coherent_removed.
Qed.

Lemma notify_inv e l s : registry_inv s → registry_inv (exec (notify e l) s).
Proof.
  intros Hinv. destruct l, e; try done; unfold notify.
  - by apply onDemand_inv.
  - apply (forEach_preserves registry_inv); [|done].
    intros. by apply stopRemovedFolder_inv.
Qed.

Lemma step_inv e s : registry_inv s → registry_inv (step e s).
Proof.
  intros Hinv. destruct e; unfold step.
  - apply (forEach_preserves registry_inv); [|done]. intros. by apply notify_inv.
  - apply (forEach_preserves registry_inv); [|done]. intros. by apply notify_inv.
  - apply coherent_alter; auto using on_ready_root.
  - apply coherent_alter; auto using on_stopped_root.
  - apply coherent_alter; auto using on_closed_root.
  - unfold exec. rewrite deactivate_effect. by apply coherent_log, coherent_stop_all.
Qed.

Lemma deliver_inv es s : registry_inv s → registry_inv (deliver es s).
Proof.
  revert s. induction es as [|e es IH]; intros s H; simpl; [done|].
  by apply IH, step_inv.
Qed.

(** * Events seen through the registered listeners *)

Lemma forEach_noop {A} (f : A → M unit) l s :
  (∀ x, f x s = (tt, s)) → forEach f l s = (tt, s).
Proof.
  intros Hf. induction l as [|x l IH]; simpl; [done|].
  unfold mbind, M_bind. by rewrite Hf.
Qed.

Lemma step_open_skip W d s :
  (qualifies d = false ∨
   getWorkspaceFolder W (uri d) = None ∨
   ∃ folder, getWorkspaceFolder W (uri d) = Some folder ∧
             JSMap.has (toString (wf_uri folder)) (clients s) = true) →
  step (DidOpenTextDocument W d) s = s.
Proof.
  intros H. unfold step, exec. rewrite forEach_noop; [done|].
  intros [so oc|]; simpl; [|done].
  destruct H as [H | [H | (folder & Hf & Hhas)]].
  - by apply onDemand_not_qualifying.
  - by apply onDemand_no_folder.
  - by apply (onDemand_present _ _ _ _ folder).
Qed.

Lemma has_after_added so oc folder s :
  JSMap.has (toString (wf_uri folder)) (clients (client_added so oc folder s)) = true.
Proof. apply JSMapFacts.has_get. simpl. rewrite JSMapFacts.get_set_eq. by eexists. Qed.

Lemma open_listeners_cases W d ls s :
  exec (forEach (notify (DidOpenTextDocument W d)) ls) s = s ∨
  ∃ so oc folder,
    qualifies d = true ∧
    getWorkspaceFolder W (uri d) = Some folder ∧
    JSMap.get (toString (wf_uri folder)) (clients s) = None ∧
    exec (forEach (notify (DidOpenTextDocument W d)) ls) s = client_added so oc folder s.
Proof.
  induction ls as [|l ls IH]; [by left|].
  rewrite exec_forEach_cons. destruct l as [so oc|].
  - unfold notify at 2 4.
    destruct (onDemand_cases so oc W d s) as [-> | (folder & Hq & Hf & Hnone & ->)];
      [done|].
    right. exists so, oc, folder. split_and!; try done.
    unfold exec. rewrite forEach_noop; [done|].
    intros [so' oc'|]; simpl; [|done].
    apply (onDemand_present _ _ _ _ folder); [done | apply has_after_added].
  - done.
Qed.

Lemma step_open_cases W d s :
  step (DidOpenTextDocument W d) s = s ∨
  ∃ so oc folder,
    qualifies d = true ∧
    getWorkspaceFolder W (uri d) = Some folder ∧
    JSMap.get (toString (wf_uri folder)) (clients s) = None ∧
    step (DidOpenTextDocument W d) s = client_added so oc folder s.
Proof. apply open_listeners_cases. Qed.

(** A key absent from the registry stays absent while folders are removed. *)
Lemma stopRemovedFolder_get_None folder k s :
  JSMap.get k (clients s) = None →
  JSMap.get k (clients (exec (stopRemovedFolder folder) s)) = None.
Proof.
  intros Hnone. destruct (stopRemovedFolder_cases folder s) as [[_ ->] | (c & Hget & ->)];
    [done|].
  simpl. destruct (decide (toString (wf_uri folder) = k)) as [<-|Hne].
  - apply JSMapFacts.get_delete_eq.
  - by rewrite JSMapFacts.get_delete_ne.
Qed.

Lemma step_folders_get_None event k s :
  JSMap.get k (clients s) = None →
  JSMap.get k (clients (step (DidChangeWorkspaceFolders event) s)) = None.
Proof.
  unfold step.
  apply (forEach_preserves (λ s, JSMap.get k (clients s) = None)).
  intros [so oc|] s' Hs'; [done|]. unfold notify, stopRemovedFolders.
  revert s' Hs'. apply (forEach_preserves (λ s, JSMap.get k (clients s) = None)).
  intros folder s'. apply stopRemovedFolder_get_None.
Qed.

Lemma step_folders_none_removed a s :
  step (DidChangeWorkspaceFolders {| added := a; removed := [] |}) s = s.
Proof.
  unfold step, exec. rewrite forEach_noop; [done|]. by intros [so oc|].
Qed.

Lemma stop_all_length cs h :
  length (foldl (λ h c, alter on_stop c h) h cs) = length h.
Proof.
  revert h. induction cs as [|c cs IH]; intros h; simpl; [done|].
  by rewrite IH, length_alter.
Qed.

Lemma step_deactivate s :
  step Deactivate s =
  {| clients := clients s;
     heap := foldl (λ h c, alter on_stop c h) (heap s) (JSMap.values (clients s));
     subscriptions := subscriptions s;
     listeners := listeners s;
     calls := calls s ++ (ClientStop <$> JSMap.values (clients s)) |}.
Proof. unfold step, exec. by rewrite deactivate_effect. Qed.

(** * The state after activation *)

Lemma activated_single context W :
  multi_root W = false →
  activated context W =
  {| clients := [(rootPath_or_slash W, 0)];
     heap := [started_client (serverOptions_of context) single_options];
     subscriptions := [ClientDisposable 0; ProgressReporting 0];
     listeners := [];
     calls := [CreateOutputChannel "pyright"; NewLanguageClient 0; ClientStart 0;
               SubscriptionsPush (ClientDisposable 0); NewProgressReporting 0;
               SubscriptionsPush (ProgressReporting 0);
               ClientsSet (rootPath_or_slash W) 0] |}.
Proof.
  intros Hmode. unfold activated, activate, exec, mbind, M_bind. simpl.
  rewrite Hmode. reflexivity.
Qed.

Lemma activated_multi context W :
  multi_root W = true →
  activated context W =
  exec (addListener StopRemovedFolders) (after_scan context W).
Proof.
  intros Hmode. unfold activated, activate, exec, mbind, M_bind. simpl.
  rewrite Hmode. unfold after_scan, exec, before_scan, serverOptions_of, pyright_channel.
  simpl.
  by destruct (forEach _ _ _) as [[] s2].
Qed.

Lemma activated_multi_inv context W :
  multi_root W = true → registry_inv (activated context W).
Proof.
  intros Hmode. rewrite activated_multi by done.
  unfold exec, addListener, registry_inv; simpl.
  apply coherent_log. apply (forEach_preserves registry_inv).
  - intros. by apply onDemand_inv.
  - apply coherent_empty.
Qed.

Lemma step_no_listeners e s :
  listeners s = [] →
  listeners (step e s) = [] ∧ clients (step e s) = clients s ∧
  length (heap (step e s)) = length (heap s).
Proof.
  intros Hl. destruct e; unfold step; rewrite ?Hl, ?exec_forEach_nil; simpl.
  - done.
  - done.
  - by rewrite length_alter.
  - by rewrite length_alter.
  - by rewrite length_alter.
  - fold (step Deactivate s). rewrite step_deactivate. simpl.
    by rewrite stop_all_length.
Qed.

Lemma deliver_no_listeners es s :
  listeners s = [] →
  clients (deliver es s) = clients s ∧ length (heap (deliver es s)) = length (heap s).
Proof.
  revert s. induction es as [|e es IH]; intros s Hl; simpl; [done|].
  destruct (step_no_listeners e s Hl) as (Hl' & Hc & Hh).
  destruct (IH _ Hl') as [-> ->]. by rewrite Hc, Hh.
Qed.

(** * Listeners stay as [activate] registered them *)

Lemma step_listeners e s : listeners (step e s) = listeners s.
Proof.
  destruct e; unfold step; try done.
  - apply (forEach_preserves (λ s', listeners s' = listeners s)); [|done].
    intros [so oc|] s' Hs'; [|done]. unfold notify.
    by destruct (onDemand_cases so oc W document s') as [-> | (f & _ & _ & _ & ->)].
  - apply (forEach_preserves (λ s', listeners s' = listeners s)); [|done].
    intros [so oc|] s' Hs'; [done|]. unfold notify, stopRemovedFolders.
    revert s' Hs'. apply (forEach_preserves (λ s', listeners s' = listeners s)).
    intros folder s' Hs'.
    by destruct (stopRemovedFolder_cases folder s') as [[_ ->] | (c & _ & ->)].
  - fold (step Deactivate s). by rewrite step_deactivate.
Qed.

Lemma deliver_listeners es s : listeners (deliver es s) = listeners s.
Proof.
  revert s. induction es as [|e es IH]; intros s; simpl; [done|].
  by rewrite IH, step_listeners.
Qed.

Lemma listeners_multi context W es :
  multi_root W = true →
  listeners (deliver es (activated context W)) =
  [RunLanguageClientOnDemand (serverOptions_of context) pyright_channel; StopRemovedFolders].
Proof.
  intros Hmode. rewrite deliver_listeners, activated_multi by done.
  unfold exec, addListener; simpl.
  change [RunLanguageClientOnDemand (serverOptions_of context) pyright_channel; StopRemovedFolders]
    with (listeners (before_scan context) ++ [StopRemovedFolders]).
  f_equal. unfold after_scan.
  apply (forEach_preserves (λ s', listeners s' = listeners (before_scan context))); [|done].
  intros d s' Hs'.
  by destruct (onDemand_cases (serverOptions_of context) pyright_channel W d s')
    as [-> | (f & _ & _ & _ & ->)].
Qed.

Lemma step_open_multi so oc W d s :
  listeners s = [RunLanguageClientOnDemand so oc; StopRemovedFolders] →
  step (DidOpenTextDocument W d) s = exec (runLanguageClientOnDemand so oc W d) s.
Proof.
  intros Hl. unfold step. rewrite Hl, !exec_forEach_cons, exec_forEach_nil. done.
Qed.

Lemma step_folders_multi so oc event s :
  listeners s = [RunLanguageClientOnDemand so oc; StopRemovedFolders] →
  step (DidChangeWorkspaceFolders event) s = exec (stopRemovedFolders event) s.
Proof.
  intros Hl. unfold step. rewrite Hl, !exec_forEach_cons, exec_forEach_nil. done.
Qed.

Lemma key_of_document_folder W d k :
  key_of_document W d = Some k →
  ∃ folder, getWorkspaceFolder W (uri d) = Some folder ∧ toString (wf_uri folder) = k.
Proof.
  unfold key_of_document. destruct (getWorkspaceFolder W (uri d)) as [folder|]; [|done].
  intros [= <-]. by exists folder.
Qed.

(** * Frame lemmas *)

Lemma entry_unchanged_refl k s : entry_unchanged k s s.
Proof. by split. Qed.

Lemma entry_unchanged_trans k s1 s2 s3 :
  entry_unchanged k s1 s2 → entry_unchanged k s2 s3 → entry_unchanged k s1 s3.
Proof.
  intros [G12 H12] [G23 H23]. split; [congruence|].
  intros c Hc. rewrite H23, H12; [done | done | congruence].
Qed.

Lemma client_added_frame so oc folder k s :
  registry_inv s →
  toString (wf_uri folder) ≠ k →
  entry_unchanged k s (client_added so oc folder s).
Proof.
  intros [_ He _] Hne. split; simpl.
  - by apply JSMapFacts.get_set_ne.
  - intros c Hc. destruct (He k c Hc) as (x & Hx & _).
    rewrite Hx. by apply lookup_app_l_Some.
Qed.

Lemma client_removed_frame k c k' s :
  registry_inv s →
  JSMap.get k (clients s) = Some c →
  k ≠ k' →
  entry_unchanged k' s (client_removed k c s).
Proof.
  intros [_ He _] Hget Hne. split; simpl.
  - by apply JSMapFacts.get_delete_ne.
  - intros c' Hc'. apply list_lookup_alter_ne. intros ->.
    destruct (He k c' Hget) as (x & Hx & Hr).
    destruct (He k' c' Hc') as (x' & Hx' & Hr'). congruence.
Qed.

Lemma stopRemovedFolder_frame folder k s :
  registry_inv s →
  toString (wf_uri folder) ≠ k →
  entry_unchanged k s (exec (stopRemovedFolder folder) s).
Proof.
  intros Hinv Hne.
  destruct (stopRemovedFolder_cases folder s) as [[_ ->] | (c & Hget & ->)].
  - apply entry_unchanged_refl.
  - by apply client_removed_frame.
Qed.

Lemma stopRemovedFolders_frame folders k s :
  registry_inv s →
  k ∉ (λ folder, toString (wf_uri folder)) <$> folders →
  entry_unchanged k s (exec (forEach stopRemovedFolder folders) s).
Proof.
  revert s. induction folders as [|folder folders IH]; intros s Hinv Hk.
  - apply entry_unchanged_refl.
  - rewrite exec_forEach_cons. rewrite fmap_cons in Hk.
    apply not_elem_of_cons in Hk as [Hne Hk].
    eapply entry_unchanged_trans.
    + apply stopRemovedFolder_frame; [done | by intros Heq; apply Hne].
    + apply IH; [by apply stopRemovedFolder_inv | done].
Qed.

(** * The log of calls *)

Lemma replay_app m l1 l2 : replay m (l1 ++ l2) = replay (replay m l1) l2.
Proof.
  revert m. induction l1 as [|a l1 IH]; intros m; [done|].
  destruct a; simpl; apply IH.
Qed.

Lemma list_pair_ind {A} (P : list A → Prop) :
  P [] → (∀ a, P [a]) → (∀ a b l, P l → P (b :: l) → P (a :: b :: l)) →
  ∀ l, P l.
Proof.
  intros Hnil Hone Hstep l.
  assert (P l ∧ ∀ a, P (a :: l)) as [H _]; [|done].
  induction l as [|b l [IH1 IH2]]; [by split|].
  split; [apply IH2|]. intros a. apply Hstep; [done | apply IH2].
Qed.

Lemma delete_then_stop_app l1 : ∀ m l2,
  delete_then_stop m l1 = true →
  delete_then_stop m (l1 ++ l2) = delete_then_stop (replay m l1) l2.
Proof.
  induction l1 as [|a|a b l1 IH1 IH2] using list_pair_ind; intros m l2 H.
  - done.
  - destruct a; simpl in *; try done.
    by destruct (JSMap.get k m).
  - destruct a; try (apply (IH2 _ l2 H)).
    simpl in H |- *. destruct (JSMap.get k m) as [c|]; [|done].
    destruct b; try done.
    apply andb_true_iff in H as [H1 H2]. rewrite H1. simpl.
    by apply IH1.
Qed.

Lemma trace_ok_extend suffix s s' :
  trace_ok s →
  calls s' = calls s ++ suffix →
  delete_then_stop (clients s) suffix = true →
  replay (clients s) suffix = clients s' →
  trace_ok s'.
Proof.
  intros [Hok Hre] Hcalls Hsuf Hm. unfold trace_ok.
  rewrite Hcalls, delete_then_stop_app, replay_app, Hre by done. done.
Qed.

Lemma stops_ok m cs :
  delete_then_stop m (ClientStop <$> cs) = true ∧ replay m (ClientStop <$> cs) = m.
Proof. induction cs as [|c cs [IH1 IH2]]; by split. Qed.

Lemma client_added_trace so oc folder s :
  trace_ok s → trace_ok (client_added so oc folder s).
Proof.
  intros H. by eapply trace_ok_extend; [done | reflexivity | |].
Qed.

Lemma client_removed_trace k c s :
  JSMap.get k (clients s) = Some c →
  trace_ok s → trace_ok (client_removed k c s).
Proof.
  intros Hget H. eapply trace_ok_extend; [done | reflexivity | | done].
  simpl. rewrite Hget. by rewrite bool_decide_eq_true_2.
Qed.

Lemma onDemand_trace so oc W d s :
  trace_ok s → trace_ok (exec (runLanguageClientOnDemand so oc W d) s).
Proof.
  intros H. destruct (onDemand_cases so oc W d s) as [-> | (f & _ & _ & _ & ->)];
    [done | by apply client_added_trace].
Qed.

Lemma stopRemovedFolder_trace folder s :
  trace_ok s → trace_ok (exec (stopRemovedFolder folder) s).
Proof.
  intros H. destruct (stopRemovedFolder_cases folder s) as [[_ ->] | (c & Hget & ->)];
    [done | by apply client_removed_trace].
Qed.

Lemma step_trace e s : trace_ok s → trace_ok (step e s).
Proof.
  intros H. destruct e; unfold step; try done.
  - apply (forEach_preserves trace_ok); [|done].
    intros [so oc|] s' Hs'; [|done]. by apply onDemand_trace.
  - apply (forEach_preserves trace_ok); [|done].
    intros [so oc|] s' Hs'; [done|]. unfold notify, stopRemovedFolders.
    revert s' Hs'. apply (forEach_preserves trace_ok).
    intros. by apply stopRemovedFolder_trace.
  - fold (step Deactivate s). rewrite step_deactivate.
    eapply trace_ok_extend; [done | reflexivity | apply stops_ok | apply stops_ok].
Qed.

Lemma deliver_trace es s : trace_ok s → trace_ok (deliver es s).
Proof.
  revert s. induction es as [|e es IH]; intros s H; simpl; [done|].
  by apply IH, step_trace.
Qed.

Lemma activated_trace context W : trace_ok (activated context W).
Proof.
  destruct (multi_root W) eqn:Hmode.
  - rewrite activated_multi by done.
    assert (trace_ok (after_scan context W)) as H.
    { apply (forEach_preserves trace_ok); [|done].
      intros. by apply onDemand_trace. }
    by eapply trace_ok_extend; [done | reflexivity | |].
  - by rewrite activated_single.
Qed.

(** * Server events leave the registry alone *)

Lemma deliver_server_events es s :
  forallb is_server_event es = true →
  clients (deliver es s) = clients s.
Proof.
  revert s. induction es as [|e es IH]; intros s H; simpl in *; [done|].
  apply andb_true_iff in H as [He Hes]. rewrite IH by done.
  by destruct e.
Qed.

Lemma settled_stopped p s c :
  settled p s = true → c ∈ awaits p → state_of c s = Some Stopped.
Proof.
  unfold settled, state_of. intros H Hc.
  rewrite forallb_forall in H. apply list_elem_of_In in Hc.
  specialize (H c Hc). destruct (heap s !! c) as [x|]; [|done].
  apply bool_decide_eq_true_1 in H. simpl. by rewrite H.
Qed.

(** * The example run *)

Example reopen_clients :
  clients (deliver Example.reopen (activated Example.context Example.two_roots))
  = [("file:///w/r1", 1)].
Proof. reflexivity. Qed.

Example reopen_states :
  client_state <$> heap (deliver Example.reopen (activated Example.context Example.two_roots))
  = [Stopping; Starting].
Proof. reflexivity. Qed.

Example reopen_calls :
  calls (deliver Example.reopen (activated Example.context Example.two_roots)) =
  [CreateOutputChannel "pyright";
   AddListener (RunLanguageClientOnDemand (serverOptions_of Example.context) pyright_channel);
   AddListener StopRemovedFolders;
   NewLanguageClient 0; ClientStart 0; SubscriptionsPush (ClientDisposable 0);
   NewProgressReporting 0; SubscriptionsPush (ProgressReporting 0);
   ClientsSet "file:///w/r1" 0;
   ClientsDelete "file:///w/r1"; ClientStop 0;
   NewLanguageClient 1; ClientStart 1; SubscriptionsPush (ClientDisposable 1);
   NewProgressReporting 1; SubscriptionsPush (ProgressReporting 1);
   ClientsSet "file:///w/r1" 1].
Proof. reflexivity. Qed.

(** A late answer to the handshake sets the removed client running again
    while its successor is starting. *)
Example reopen_then_ready_states :
  client_state <$>
    heap (deliver (Example.reopen ++ [ServerReady 0])
            (activated Example.context Example.two_roots))
  = [Running; Starting].
Proof. reflexivity. Qed.

(** A server that ends on its own leaves a stopped client in the registry. *)
Example closed_client_stays_registered :
  let s := deliver [DidOpenTextDocument Example.two_roots Example.a_py; ServerClosed 0]
             (activated Example.context Example.two_roots) in
  clients s = [("file:///w/r1", 0)] ∧ state_of 0 s = Some Stopped.
Proof. by split. Qed.

(** * Properties of the registry *)

(** C1. In multi-root mode, after activation (which includes the scan of
    the already open documents) and any sequence of events, the registry
    holds at most one client per workspace-folder URI: its keys are pairwise
    distinct and every entry holds the client that was created for exactly
    that folder.  It holds every client that the extension has not asked to
    stop, under the URI of that client's folder; so no two clients that have
    not been asked to stop were created for the same folder. *)
Theorem one_session_per_root context W es :
  multi_root W = true →
  let s := deliver es (activated context W) in
  NoDup (JSMap.keys (clients s)) ∧
  (∀ k c, JSMap.get k (clients s) = Some c →
          ∃ x, heap s !! c = Some x ∧ root_of x = Some k) ∧
  (∀ c x, heap s !! c = Some x → ClientStop c ∉ calls s →
          ∃ k, root_of x = Some k ∧ JSMap.get k (clients s) = Some c) ∧
  (∀ c1 c2 x1 x2,
      heap s !! c1 = Some x1 → heap s !! c2 = Some x2 →
      ClientStop c1 ∉ calls s → ClientStop c2 ∉ calls s →
      root_of x1 = root_of x2 → c1 = c2).
Proof.
  intros Hmode s.
  assert (registry_inv s) as [Hk He Ha]
    by (apply deliver_inv, activated_multi_inv, Hmode).
  assert (∀ c x, heap s !! c = Some x → ClientStop c ∉ calls s →
                 ∃ k, root_of x = Some k ∧ JSMap.get k (clients s) = Some c) as Hu.
  { intros c x Hx Hns. by destruct (Ha c x Hx) as [Hstop | H]. }
  split_and!; [done | done | done |].
  intros c1 c2 x1 x2 H1 H2 A1 A2 Hroot.
  destruct (Hu c1 x1 H1 A1) as (k1 & R1 & G1).
  destruct (Hu c2 x2 H2 A2) as (k2 & R2 & G2).
  congruence.
Qed.

Lemma one_session_per_root_witness :
  let s := deliver Example.reopen (activated Example.context Example.two_roots) in
  NoDup (JSMap.keys (clients s)) ∧
  (∀ k c, JSMap.get k (clients s) = Some c →
          ∃ x, heap s !! c = Some x ∧ root_of x = Some k) ∧
  (∃ k, root_of (started_client (serverOptions_of Example.context)
                   (onDemand_options pyright_channel Example.R1)) = Some k ∧
        JSMap.get k (clients s) = Some 1) ∧
  (∀ c1 c2 x1 x2,
      heap s !! c1 = Some x1 → heap s !! c2 = Some x2 →
      ClientStop c1 ∉ calls s → ClientStop c2 ∉ calls s →
      root_of x1 = root_of x2 → c1 = c2).
Proof.
  pose proof (one_session_per_root Example.context Example.two_roots Example.reopen
                eq_refl) as (Hkeys & Hentry & Hheld & Hone).
  split_and!; [exact Hkeys | exact Hentry | | exact Hone].
  apply (Hheld 1); [reflexivity|].
  vm_compute. intros H.
  repeat (apply elem_of_cons in H as [H|H]; [discriminate H|]).
  by apply elem_of_nil in H.
Defined.

(** C2. In multi-root mode, when two document-opened events for the same
    folder follow each other, the first for a qualifying document, the
    folder has an entry after the first event, the second event finds the
    same client under it, and the second event leaves the whole state (the
    registry, the client objects, the calls made) as the first left it: no
    new client is created.  More generally a document-opened event for a
    folder that has an entry changes nothing, in any state. *)
Theorem ensure_idempotent context W0 es W d W' d' k :
  multi_root W0 = true →
  qualifies d = true →
  key_of_document W d = Some k →
  key_of_document W' d' = Some k →
  let s := deliver es (activated context W0) in
  let s1 := step (DidOpenTextDocument W d) s in
  let s2 := step (DidOpenTextDocument W' d') s1 in
  (∃ c, JSMap.get k (clients s1) = Some c ∧ JSMap.get k (clients s2) = Some c) ∧
  s2 = s1 ∧
  (∀ s0, JSMap.has k (clients s0) = true → step (DidOpenTextDocument W' d') s0 = s0).
Proof.
  intros Hmode Hq Hk Hk' s s1 s2.
  destruct (key_of_document_folder _ _ _ Hk) as (folder & Hf & Hkey).
  destruct (key_of_document_folder _ _ _ Hk') as (folder' & Hf' & Hkey').
  assert (∀ s0, JSMap.has k (clients s0) = true →
                step (DidOpenTextDocument W' d') s0 = s0) as Hskip.
  { intros s0 Hhas. apply step_open_skip. right; right.
    exists folder'. by rewrite Hkey'. }
  assert (∃ c, JSMap.get k (clients s1) = Some c) as [c Hc].
  { subst s1. rewrite (step_open_multi (serverOptions_of context) pyright_channel)
      by (by apply listeners_multi).
    destruct (JSMap.has k (clients s)) eqn:Hhas.
    - unfold exec. rewrite (onDemand_present _ _ _ _ folder) by (by rewrite ?Hkey).
      by apply JSMapFacts.has_get in Hhas.
    - unfold exec. rewrite (onDemand_create _ _ _ _ folder) by (by rewrite ?Hkey).
      simpl. rewrite Hkey, JSMapFacts.get_set_eq. by eexists. }
  assert (s2 = s1) as Heq.
  { apply Hskip, JSMapFacts.has_get. by eexists. }
  split_and!; [|done|done].
  exists c. by rewrite Heq.
Qed.

Lemma ensure_idempotent_witness :
  let s := deliver [] (activated Example.context Example.two_roots) in
  let s1 := step (DidOpenTextDocument Example.two_roots Example.a_py) s in
  let s2 := step (DidOpenTextDocument Example.two_roots Example.a_py) s1 in
  (∃ c, JSMap.get "file:///w/r1" (clients s1) = Some c ∧
        JSMap.get "file:///w/r1" (clients s2) = Some c) ∧
  s2 = s1 ∧
  (∀ s0, JSMap.has "file:///w/r1" (clients s0) = true →
         step (DidOpenTextDocument Example.two_roots Example.a_py) s0 = s0).
Proof.
  apply (ensure_idempotent Example.context Example.two_roots [] Example.two_roots
           (Example.a_py) (Example.two_roots) (Example.a_py) "file:///w/r1");
    reflexivity.
Defined.

(** C5. A document-opened event for a document with languageId 'python'
    and scheme 'file' that lies in no workspace folder changes nothing: no
    client is created and the registry is as before. *)
Theorem ownerless_document_ignored W d s :
  languageId d = "python" →
  scheme (uri d) = "file" →
  getWorkspaceFolder W (uri d) = None →
  step (DidOpenTextDocument W d) s = s.
Proof.
  intros _ _ Hnone. apply step_open_skip. by right; left.
Qed.

Lemma ownerless_document_ignored_witness :
  step (DidOpenTextDocument Example.two_roots Example.stray_py)
       (activated Example.context Example.two_roots)
  = activated Example.context Example.two_roots.
Proof.
  apply (ownerless_document_ignored Example.two_roots Example.stray_py); reflexivity.
Defined.

(** C8. Removing a folder that has no entry changes nothing: the registry,
    the client objects and the calls made are as before, so no stop request
    is issued. *)
Theorem remove_absent_noop folder s :
  JSMap.has (toString (wf_uri folder)) (clients s) = false →
  stopRemovedFolder folder s = (tt, s) ∧
  ∀ a, step (DidChangeWorkspaceFolders {| added := a; removed := [folder] |}) s = s.
Proof.
  intros Hhas. apply JSMapFacts.has_false_get in Hhas.
  assert (stopRemovedFolder folder s = (tt, s)) as Hbody
    by (by apply stopRemovedFolder_absent).
  split; [done|]. intros a. unfold step, exec. rewrite forEach_noop; [done|].
  intros [so oc|]; [done|]. unfold notify, stopRemovedFolders. simpl.
  unfold mbind, M_bind. by rewrite Hbody.
Qed.

Lemma remove_absent_noop_witness :
  stopRemovedFolder Example.R2
    (step (DidOpenTextDocument Example.two_roots Example.a_py)
          (activated Example.context Example.two_roots))
  = (tt, step (DidOpenTextDocument Example.two_roots Example.a_py)
              (activated Example.context Example.two_roots)) ∧
  ∀ a, step (DidChangeWorkspaceFolders {| added := a; removed := [Example.R2] |})
         (step (DidOpenTextDocument Example.two_roots Example.a_py)
               (activated Example.context Example.two_roots))
       = step (DidOpenTextDocument Example.two_roots Example.a_py)
              (activated Example.context Example.two_roots).
Proof.
  apply (remove_absent_noop Example.R2). reflexivity.
Defined.

(** C7, as the specification states it: in single-root mode the one
    client is registered under a single default key, the same whatever the
    workspace.  It fails: with one workspace folder at [/w/r1] the key is
    that path, with no folder it is [/]. *)
Lemma single_root_key_not_default :
  ¬ ∃ k0, ∀ context W, multi_root W = false →
                       JSMap.keys (clients (activated context W)) = [k0].
Proof.
  intros [k0 H].
  pose proof (H Example.context Example.one_root eq_refl) as H1.
  pose proof (H Example.context Example.no_root eq_refl) as H2.
  vm_compute in H1, H2. congruence.
Qed.

(** C7, amended.  When [activate] runs with no workspace folder or a
    single one, it leaves exactly one client, already started, and no
    listener.  The client is registered under one key: [Workspace.rootPath]
    when that is a non-empty string, the default ['/'] when it is absent or
    empty.  Whatever events follow (documents opened, folders changed,
    server events, even [deactivate]) the registry keeps exactly that entry
    and no other client is ever created. *)
Theorem single_root_one_session context W es :
  multi_root W = false →
  let s0 := activated context W in
  (∃ k, clients s0 = [(k, 0)] ∧
        (rootPath W = None ∨ rootPath W = Some "" → k = "/") ∧
        (∀ p, rootPath W = Some p → p ≠ "" → k = p)) ∧
  heap s0 = [started_client (serverOptions_of context) single_options] ∧
  listeners s0 = [] ∧
  clients (deliver es s0) = clients s0 ∧
  length (heap (deliver es s0)) = 1.
Proof.
  intros Hmode s0. subst s0. rewrite (activated_single _ _ Hmode).
  split_and!; try done; [| by apply deliver_no_listeners..].
  exists (rootPath_or_slash W). split_and!; [done | |].
  - unfold rootPath_or_slash. by intros [-> | ->].
  - intros p Hp Hne. unfold rootPath_or_slash. rewrite Hp.
    destruct (String.eqb p "") eqn:E; [|done].
    by apply String.eqb_eq in E.
Qed.

Lemma single_root_one_session_witness :
  (let s0 := activated Example.context Example.no_root in
   let es := [DidOpenTextDocument Example.two_roots Example.a_py;
              ServerReady 0; Deactivate; ServerStopped 0] in
   clients s0 = [("/", 0)] ∧
   listeners s0 = [] ∧
   clients (deliver es s0) = clients s0 ∧
   length (heap (deliver es s0)) = 1) ∧
  (let s0 := activated Example.context Example.one_root in
   let es := [DidOpenTextDocument Example.one_root Example.a_py;
              DidChangeWorkspaceFolders Example.remove_R1; Deactivate] in
   clients s0 = [("/w/r1", 0)] ∧
   listeners s0 = [] ∧
   clients (deliver es s0) = clients s0 ∧
   length (heap (deliver es s0)) = 1).
Proof.
  split.
  - destruct (single_root_one_session Example.context Example.no_root
                [DidOpenTextDocument Example.two_roots Example.a_py;
                 ServerReady 0; Deactivate; ServerStopped 0] eq_refl)
      as ((k & Hk & Hdefault & _) & _ & Hl & Hc & Hh).
    rewrite (Hdefault (or_introl eq_refl)) in Hk. by split_and!.
  - destruct (single_root_one_session Example.context Example.one_root
                [DidOpenTextDocument Example.one_root Example.a_py;
                 DidChangeWorkspaceFolders Example.remove_R1; Deactivate] eq_refl)
      as ((k & Hk & _ & Hpath) & _ & Hl & Hc & Hh).
    rewrite (Hpath "/w/r1" eq_refl) in Hk by discriminate. by split_and!.
Defined.

(** C9. In multi-root mode, a document-opened event leaves the entry of
    every key other than the URI of the document's workspace folder as it
    was, and removing a folder leaves the entry of every key other than that
    folder's URI as it was; so does a folders-changed event for every key
    that is not among its removed folders.  The entry is the same and the
    client object it refers to is the same. *)
Theorem other_roots_untouched context W0 es k :
  multi_root W0 = true →
  let s := deliver es (activated context W0) in
  (∀ W d, key_of_document W d ≠ Some k →
          entry_unchanged k s (step (DidOpenTextDocument W d) s)) ∧
  (∀ folder, toString (wf_uri folder) ≠ k →
             entry_unchanged k s (exec (stopRemovedFolder folder) s)) ∧
  (∀ event, k ∉ removed_keys event →
            entry_unchanged k s (step (DidChangeWorkspaceFolders event) s)).
Proof.
  intros Hmode s.
  assert (registry_inv s) as Hinv by (apply deliver_inv, activated_multi_inv, Hmode).
  split_and!.
  - intros W d Hk.
    destruct (step_open_cases W d s) as [-> | (so & oc & folder & _ & Hf & _ & ->)].
    + apply entry_unchanged_refl.
    + apply client_added_frame; [done|]. intros <-. apply Hk.
      unfold key_of_document. by rewrite Hf.
  - intros folder Hne. by apply stopRemovedFolder_frame.
  - intros event Hk.
    rewrite (step_folders_multi (serverOptions_of context) pyright_channel)
      by (by apply listeners_multi).
    by apply stopRemovedFolders_frame.
Qed.

Lemma other_roots_untouched_witness :
  let s := deliver [DidOpenTextDocument Example.two_roots Example.a_py]
             (activated Example.context Example.two_roots) in
  entry_unchanged "file:///w/r1" s
    (step (DidOpenTextDocument Example.two_roots Example.b_py) s) ∧
  entry_unchanged "file:///w/r1" s (exec (stopRemovedFolder Example.R2) s) ∧
  entry_unchanged "file:///w/r1" s
    (step (DidChangeWorkspaceFolders {| added := []; removed := [Example.R2] |}) s).
Proof.
  pose proof (other_roots_untouched Example.context Example.two_roots
                [DidOpenTextDocument Example.two_roots Example.a_py]
                "file:///w/r1" eq_refl) as (Hopen & Hbody & Hevent).
  split_and!.
  - apply Hopen. vm_compute. discriminate.
  - apply Hbody. vm_compute. discriminate.
  - apply Hevent. apply (bool_decide_unpack _). vm_compute. exact I.
Defined.

(** C10. The only event that can give a key an entry it did not have is a
    document-opened event for a document with languageId 'python' and scheme
    'file' in the workspace folder with that URI.  A folders-changed event
    that only adds folders changes nothing, and a document-opened event for
    a document that does not qualify changes nothing. *)
Theorem only_qualifying_documents_add :
  (∀ e s k,
      JSMap.get k (clients s) = None →
      is_Some (JSMap.get k (clients (step e s))) →
      ∃ W d, e = DidOpenTextDocument W d ∧
             languageId d = "python" ∧ scheme (uri d) = "file" ∧
             key_of_document W d = Some k) ∧
  (∀ a s, step (DidChangeWorkspaceFolders {| added := a; removed := [] |}) s = s) ∧
  (∀ W d s, qualifies d = false → step (DidOpenTextDocument W d) s = s).
Proof.
  split_and!.
  - intros e s k Hnone [c Hsome]. destruct e as [W d|event|c'|c'|c'|].
    + exists W, d. split; [done|].
      destruct (step_open_cases W d s) as [Heq | (so & oc & folder & Hq & Hf & _ & Heq)];
        rewrite Heq in Hsome; [congruence|].
      unfold qualifies in Hq. apply andb_true_iff in Hq as [Hl Hs].
      apply String.eqb_eq in Hl, Hs. split_and!; [done | done |].
      unfold key_of_document. rewrite Hf. simpl. f_equal.
      simpl in Hsome. destruct (decide (toString (wf_uri folder) = k)) as [|Hne]; [done|].
      rewrite JSMapFacts.get_set_ne in Hsome by done. congruence.
    + pose proof (step_folders_get_None event k s Hnone). congruence.
    + simpl in Hsome. congruence.
    + simpl in Hsome. congruence.
    + simpl in Hsome. congruence.
    + rewrite step_deactivate in Hsome. simpl in Hsome. congruence.
  - apply step_folders_none_removed.
  - intros W d s Hq. apply step_open_skip. by left.
Qed.

Lemma only_qualifying_documents_add_witness :
  (∃ W d, DidOpenTextDocument Example.two_roots Example.a_py = DidOpenTextDocument W d ∧
          languageId d = "python" ∧ scheme (uri d) = "file" ∧
          key_of_document W d = Some "file:///w/r1") ∧
  step (DidChangeWorkspaceFolders Example.add_R2)
       (activated Example.context Example.two_roots)
  = activated Example.context Example.two_roots ∧
  step (DidOpenTextDocument Example.two_roots Example.readme)
       (activated Example.context Example.two_roots)
  = activated Example.context Example.two_roots.
Proof.
  pose proof only_qualifying_documents_add as (Hadd & Hfolders & Hskip).
  split_and!; [| apply Hfolders |].
  - apply (Hadd (DidOpenTextDocument Example.two_roots Example.a_py)
                (activated Example.context Example.two_roots) "file:///w/r1").
    + reflexivity.
    + vm_compute. by eexists.
  - apply Hskip. reflexivity.
Defined.

(** C3, as the specification states it: whenever the promise returned by
    [deactivate] has settled, the registry is empty.  It fails: with one
    root, [deactivate] stops client 0, the promise settles once the server
    has stopped, and the registry still holds the entry. *)
Lemma registry_not_emptied_by_deactivate :
  ¬ (∀ context W es es',
        let s := deliver es (activated context W) in
        let p := (deactivate s).1 in
        let s' := deliver es' (deactivate s).2 in
        settled p s' = true → clients s' = JSMap.empty).
Proof.
  intros H.
  specialize (H Example.context Example.no_root [] [ServerStopped 0] eq_refl).
  discriminate H.
Qed.

(** C3, amended.  [deactivate] asks every client of the registry to stop,
    in the order of the registry, and returns a promise that awaits exactly
    those stops, but it deletes no entry.  When it returns, and after any
    events of the server processes that follow (handshake answered, stop
    completed, process closed), so also when its promise settles with no
    editor event handled in between, the registry still holds exactly the
    entries it held when [deactivate] was called, whether or not any stop
    has completed. *)
Theorem deactivate_keeps_registry s es :
  forallb is_server_event es = true →
  let p := (deactivate s).1 in
  let s1 := (deactivate s).2 in
  let s' := deliver es s1 in
  awaits p = JSMap.values (clients s) ∧
  calls s1 = calls s ++ (ClientStop <$> JSMap.values (clients s)) ∧
  clients s1 = clients s ∧
  clients s' = clients s.
Proof.
  intros Hes p s1 s'. subst p s1 s'. rewrite deactivate_effect. simpl.
  split_and!; try done.
  by rewrite deliver_server_events.
Qed.

Lemma deactivate_keeps_registry_witness :
  let s := activated Example.context Example.no_root in
  let p := (deactivate s).1 in
  let s1 := (deactivate s).2 in
  let s' := deliver [ServerReady 0; ServerStopped 0] s1 in
  awaits p = [0] ∧
  calls s1 = calls s ++ [ClientStop 0] ∧
  clients s1 = [("/", 0)] ∧
  clients s' = [("/", 0)].
Proof.
  apply (deactivate_keeps_registry (activated Example.context Example.no_root)
           [ServerReady 0; ServerStopped 0]).
  reflexivity.
Defined.

(** C4, as the specification states it: every entry deleted from the
    registry belongs to a client that was asked to stop before the deletion.
    It fails: opening a file of R1 and then removing R1 logs
    [clients.delete] before [stop()]. *)
Lemma stop_not_before_delete :
  ¬ (∀ context W es,
        stop_then_delete JSMap.empty [] (calls (deliver es (activated context W))) = true).
Proof.
  intros H.
  specialize (H Example.context Example.two_roots
                [DidOpenTextDocument Example.two_roots Example.a_py;
                 DidChangeWorkspaceFolders Example.remove_R1]).
  discriminate H.
Qed.

(** C4, amended.  When a folder that has a client is removed, its entry is
    deleted from the registry and the stop request is issued right after, in
    the same run of the listener: these are the two calls the removal adds,
    in that order.  Over any sequence of events, in either mode, every
    deletion in the log of calls is of an existing entry and is followed at
    once by the stop request to the client that entry held. *)
Theorem removal_deletes_then_stops context W es folder c :
  let s := deliver es (activated context W) in
  let k := toString (wf_uri folder) in
  JSMap.get k (clients s) = Some c →
  let s' := exec (stopRemovedFolder folder) s in
  calls s' = calls s ++ [ClientsDelete k; ClientStop c] ∧
  JSMap.get k (clients s') = None ∧
  heap s' = alter on_stop c (heap s) ∧
  delete_then_stop JSMap.empty (calls s) = true ∧
  delete_then_stop JSMap.empty (calls s') = true.
Proof.
  intros s k Hget s'.
  assert (trace_ok s) as Hs by apply deliver_trace, activated_trace.
  assert (trace_ok s') as Hs' by (by apply stopRemovedFolder_trace).
  destruct Hs as [Hs _], Hs' as [Hs' _].
  split_and!; try done; subst s'; unfold exec;
    rewrite (stopRemovedFolder_present _ c) by done; simpl; [done | | done].
  apply JSMapFacts.get_delete_eq.
Qed.

Lemma removal_deletes_then_stops_witness :
  let s := deliver [DidOpenTextDocument Example.two_roots Example.a_py]
             (activated Example.context Example.two_roots) in
  let s' := exec (stopRemovedFolder Example.R1) s in
  calls s' = calls s ++ [ClientsDelete "file:///w/r1"; ClientStop 0] ∧
  JSMap.get "file:///w/r1" (clients s') = None ∧
  heap s' = alter on_stop 0 (heap s) ∧
  delete_then_stop JSMap.empty (calls s) = true ∧
  delete_then_stop JSMap.empty (calls s') = true.
Proof.
  apply (removal_deletes_then_stops Example.context Example.two_roots
           [DidOpenTextDocument Example.two_roots Example.a_py] Example.R1 0).
  reflexivity.
Defined.

(** C6, as the specification states it: an event creates a client for a
    folder only when every earlier client of that folder has completed its
    stop.  It fails: after a file of R1 was opened, R1 was removed and R1
    was added again, client 0 is still stopping when the file is opened
    again, and client 1 is created and started for R1 all the same. *)
Lemma restart_does_not_wait :
  ¬ (∀ context W es e,
        multi_root W = true →
        restart_waits (deliver es (activated context W)) e).
Proof.
  intros H.
  specialize (H Example.context Example.two_roots
                [DidOpenTextDocument Example.two_roots Example.a_py;
                 DidChangeWorkspaceFolders Example.remove_R1;
                 DidChangeWorkspaceFolders Example.add_R1]
                (DidOpenTextDocument Example.two_roots Example.a_py)
                eq_refl 0
                (set_state Stopping
                   (started_client (serverOptions_of Example.context)
                      (onDemand_options pyright_channel Example.R1)))
                1
                (started_client (serverOptions_of Example.context)
                   (onDemand_options pyright_channel Example.R1))
                eq_refl eq_refl eq_refl (ex_intro _ _ eq_refl) eq_refl).
  discriminate H.
Qed.

(** C6, amended.  In multi-root mode, when a folder whose client is
    starting or running is removed, then (possibly) folders are added, and a
    qualifying document of that folder is opened right after, the stop of
    the old client has been requested (it is stopping, its entry is gone)
    before the new client is created, but the new client is created,
    registered and started at once, while the old one is still stopping: the
    handlers do not wait for a stop to complete. *)
Theorem restart_follows_stop_request context W0 es a a' folder c W d :
  multi_root W0 = true →
  let s := deliver es (activated context W0) in
  let k := toString (wf_uri folder) in
  JSMap.get k (clients s) = Some c →
  (state_of c s = Some Starting ∨ state_of c s = Some Running) →
  qualifies d = true →
  getWorkspaceFolder W (uri d) = Some folder →
  let s1 := step (DidChangeWorkspaceFolders {| added := a; removed := [folder] |}) s in
  let s2 := step (DidOpenTextDocument W d)
              (step (DidChangeWorkspaceFolders {| added := a'; removed := [] |}) s1) in
  let c' := length (heap s) in
  (state_of c s1 = Some Stopping ∧ JSMap.get k (clients s1) = None) ∧
  (JSMap.get k (clients s2) = Some c' ∧ state_of c' s2 = Some Starting) ∧
  (state_of c s2 = Some Stopping ∧ c ≠ c').
Proof.
  intros Hmode s k Hget Hstate Hq Hf s1 s2 c'.
  unfold s2. rewrite step_folders_none_removed. clear s2.
  set (s2 := step (DidOpenTextDocument W d) s1).
  pose proof (listeners_multi context W0 es Hmode) as Hl. fold s in Hl.
  assert (s1 = client_removed k c s) as Hs1.
  { subst s1. rewrite (step_folders_multi _ _ _ _ Hl).
    unfold stopRemovedFolders. simpl removed.
    rewrite exec_forEach_cons, exec_forEach_nil. unfold exec.
    by rewrite (stopRemovedFolder_present _ c). }
  assert (s2 = client_added (serverOptions_of context) pyright_channel folder s1) as Hs2.
  { subst s2. rewrite (step_open_multi (serverOptions_of context) pyright_channel).
    - unfold exec. rewrite (onDemand_create _ _ _ _ folder); [done | done | done |].
      apply JSMapFacts.has_false_get. rewrite Hs1. simpl. apply JSMapFacts.get_delete_eq.
    - by rewrite Hs1. }
  assert (∃ x, heap s !! c = Some x ∧ active x) as (x & Hx & Hactive).
  { unfold state_of in Hstate. destruct (heap s !! c) as [x|]; [|by destruct Hstate].
    exists x. split; [done|]. unfold active. simpl in Hstate.
    destruct Hstate as [[= ->] | [= ->]]; auto. }
  assert (state_of c s1 = Some Stopping) as Hstop.
  { rewrite Hs1. unfold state_of. simpl. rewrite list_lookup_alter_eq, Hx. simpl.
    unfold on_stop. by destruct Hactive as [-> | ->]. }
  assert (length (heap s1) = c') as Hlen.
  { rewrite Hs1. simpl. by rewrite length_alter. }
  apply lookup_lt_Some in Hx as Hlt.
  split_and!.
  - done.
  - rewrite Hs1. simpl. apply JSMapFacts.get_delete_eq.
  - rewrite Hs2. simpl. by rewrite JSMapFacts.get_set_eq, Hlen.
  - rewrite Hs2. unfold state_of. simpl.
    rewrite lookup_app_r by lia. by rewrite Hlen, Nat.sub_diag.
  - rewrite Hs2. unfold state_of in *. simpl.
    rewrite lookup_app_l by lia. done.
  - subst c'. lia.
Qed.

Lemma restart_follows_stop_request_witness :
  let s := deliver [DidOpenTextDocument Example.two_roots Example.a_py]
             (activated Example.context Example.two_roots) in
  let s1 := step (DidChangeWorkspaceFolders Example.remove_R1) s in
  let s2 := step (DidOpenTextDocument Example.two_roots Example.a_py)
              (step (DidChangeWorkspaceFolders Example.add_R1) s1) in
  (state_of 0 s1 = Some Stopping ∧ JSMap.get "file:///w/r1" (clients s1) = None) ∧
  (JSMap.get "file:///w/r1" (clients s2) = Some 1 ∧ state_of 1 s2 = Some Starting) ∧
  (state_of 0 s2 = Some Stopping ∧ 0 ≠ 1).
Proof.
  apply (restart_follows_stop_request Example.context Example.two_roots
           [DidOpenTextDocument Example.two_roots Example.a_py] [] [Example.R1]
           (Example.R1) 0 (Example.two_roots) (Example.a_py)).
  - reflexivity.
  - reflexivity.
  - left. reflexivity.
  - reflexivity.
  - reflexivity.
Defined.


(** * Further properties of extension.ts *)

(** ** Invariants kept by every event *)

Lemma open_listeners_preserve (P : State → Prop) W d L :
  (∀ so oc folder s,
      P s → listeners s = L → RunLanguageClientOnDemand so oc ∈ L →
      qualifies d = true → getWorkspaceFolder W (uri d) = Some folder →
      JSMap.get (toString (wf_uri folder)) (clients s) = None →
      P (client_added so oc folder s)) →
  ∀ ls s, (∀ l, l ∈ ls → l ∈ L) → listeners s = L → P s →
          P (exec (forEach (notify (DidOpenTextDocument W d)) ls) s) ∧
          listeners (exec (forEach (notify (DidOpenTextDocument W d)) ls) s) = L.
Proof.
  intros Hadd. induction ls as [|l ls IH]; intros s Hin Hl Hs; [done|].
  rewrite exec_forEach_cons.
  assert (∀ l', l' ∈ ls → l' ∈ L) as Hin' by (intros; apply Hin; by right).
  destruct l as [so oc|]; [|by apply IH].
  unfold notify at 2 4.
  destruct (onDemand_cases so oc W d s) as [-> | (folder & Hq & Hf & Hnone & ->)];
    [by apply IH|].
  apply IH; [done | done |].
  apply Hadd; try done. apply Hin. by left.
Qed.

Lemma folders_listeners_preserve (P : State → Prop) event L :
  (∀ k c s, P s → listeners s = L → StopRemovedFolders ∈ L →
            JSMap.get k (clients s) = Some c → P (client_removed k c s)) →
  ∀ ls s, (∀ l, l ∈ ls → l ∈ L) → listeners s = L → P s →
          P (exec (forEach (notify (DidChangeWorkspaceFolders event)) ls) s) ∧
          listeners (exec (forEach (notify (DidChangeWorkspaceFolders event)) ls) s) = L.
Proof.
  intros Hrem. induction ls as [|l ls IH]; intros s Hin Hl Hs; [done|].
  rewrite exec_forEach_cons.
  assert (∀ l', l' ∈ ls → l' ∈ L) as Hin' by (intros; apply Hin; by right).
  destruct l as [so oc|]; [by apply IH|].
  assert (StopRemovedFolders ∈ L) as HinL by (apply Hin; by left).
  unfold notify at 2 4, stopRemovedFolders.
  assert (P (exec (forEach stopRemovedFolder (removed event)) s) ∧
          listeners (exec (forEach stopRemovedFolder (removed event)) s) = L) as [H1 H2].
  { apply (forEach_preserves (λ s', P s' ∧ listeners s' = L)); [|done].
    intros folder s' [Hs' Hl'].
    destruct (stopRemovedFolder_cases folder s') as [[_ ->] | (c & Hget & ->)]; [done|].
    split; [by apply Hrem | done]. }
  by apply IH.
Qed.

(** Every event but [deactivate] keeps a property that each of the four
    elementary transitions keeps. *)
Lemma step_preserves_live (P : State → Prop) :
  (∀ so oc folder s,
      P s → RunLanguageClientOnDemand so oc ∈ listeners s →
      JSMap.get (toString (wf_uri folder)) (clients s) = None →
      P (client_added so oc folder s)) →
  (∀ k c s, P s → StopRemovedFolders ∈ listeners s →
            JSMap.get k (clients s) = Some c → P (client_removed k c s)) →
  (∀ c s, P s → P (with_heap (alter on_ready c (heap s)) s)) →
  (∀ c s, P s → P (with_heap (alter on_stopped c (heap s)) s)) →
  (∀ c s, P s → P (with_heap (alter on_closed c (heap s)) s)) →
  ∀ e s, is_deactivate e = false → P s → P (step e s).
Proof.
  intros Hadd Hrem Hready Hstopped Hclosed e s He Hs.
  destruct e as [W d|event|c|c|c|].
  - unfold step. apply (open_listeners_preserve P W d (listeners s)); try done.
    intros so oc folder s' Hs' Hl Hin _ _ Hnone. apply Hadd; [done | by rewrite Hl | done].
  - unfold step. apply (folders_listeners_preserve P event (listeners s)); try done.
    intros k c s' Hs' Hl Hin Hget. apply Hrem; [done | by rewrite Hl | done].
  - by apply Hready.
  - by apply Hstopped.
  - by apply Hclosed.
  - done.
Qed.

Lemma step_preserves (P : State → Prop) :
  (∀ so oc folder s,
      P s → RunLanguageClientOnDemand so oc ∈ listeners s →
      JSMap.get (toString (wf_uri folder)) (clients s) = None →
      P (client_added so oc folder s)) →
  (∀ k c s, P s → JSMap.get k (clients s) = Some c → P (client_removed k c s)) →
  (∀ c s, P s → P (with_heap (alter on_ready c (heap s)) s)) →
  (∀ c s, P s → P (with_heap (alter on_stopped c (heap s)) s)) →
  (∀ c s, P s → P (with_heap (alter on_closed c (heap s)) s)) →
  (∀ s, P s → P (step Deactivate s)) →
  ∀ e s, P s → P (step e s).
Proof.
  intros Hadd Hrem Hready Hstopped Hclosed Hdeact e s Hs.
  destruct (is_deactivate e) eqn:He.
  - destruct e; try done. by apply Hdeact.
  - apply step_preserves_live; try done. intros k c s' Hs' _. by apply Hrem.
Qed.

Lemma deliver_preserves (P : State → Prop) :
  (∀ e s, P s → P (step e s)) → ∀ es s, P s → P (deliver es s).
Proof.
  intros Hstep es. induction es as [|e es IH]; intros s Hs; simpl; [done|].
  by apply IH, Hstep.
Qed.

Lemma activated_multi_preserves (P : State → Prop) context W :
  multi_root W = true →
  P (before_scan context) →
  (∀ folder s, P s →
      JSMap.get (toString (wf_uri folder)) (clients s) = None →
      P (client_added (serverOptions_of context) pyright_channel folder s)) →
  (∀ s, P s → P (exec (addListener StopRemovedFolders) s)) →
  P (activated context W).
Proof.
  intros Hmode H0 Hadd Hlisten. rewrite activated_multi by done.
  apply Hlisten. unfold after_scan. apply (forEach_preserves P); [|done].
  intros d s Hs.
  destruct (onDemand_cases (serverOptions_of context) pyright_channel W d s)
    as [-> | (folder & _ & _ & Hnone & ->)]; [done | by apply Hadd].
Qed.

(** ** The context's subscriptions *)

Lemma expected_subscriptions_S n :
  expected_subscriptions (S n) =
  expected_subscriptions n ++ [ClientDisposable n; ProgressReporting n].
Proof.
  unfold expected_subscriptions. rewrite seq_S, fmap_app, concat_app. simpl.
  done.
Qed.

Lemma subscriptions_inv_added so oc folder s :
  subscriptions_inv s → subscriptions_inv (client_added so oc folder s).
Proof.
  unfold subscriptions_inv. simpl. intros ->.
  rewrite length_app, Nat.add_1_r. by rewrite expected_subscriptions_S.
Qed.

Lemma subscriptions_inv_step e s : subscriptions_inv s → subscriptions_inv (step e s).
Proof.
  revert e s. apply step_preserves; unfold subscriptions_inv.
  - intros. by apply subscriptions_inv_added.
  - intros k c s Hs _. simpl. by rewrite length_alter.
  - intros c s Hs. simpl. by rewrite length_alter.
  - intros c s Hs. simpl. by rewrite length_alter.
  - intros c s Hs. simpl. by rewrite length_alter.
  - intros s Hs. rewrite step_deactivate. simpl. by rewrite stop_all_length.
Qed.

Lemma subscriptions_inv_activated context W : subscriptions_inv (activated context W).
Proof.
  destruct (multi_root W) eqn:Hmode.
  - apply activated_multi_preserves; try done.
    intros. by apply subscriptions_inv_added.
  - by rewrite activated_single.
Qed.

(** X1. Whatever events arrive, in either mode, [context.subscriptions]
    holds, for every client ever created and in the order of creation, the
    disposable of its [start()] followed by its progress reporter, and
    nothing else: removing a folder or deactivating takes nothing out. *)
Theorem subscriptions_follow_clients context W es :
  let s := deliver es (activated context W) in
  subscriptions s = expected_subscriptions (length (heap s)).
Proof.
  apply (deliver_preserves subscriptions_inv).
  - apply subscriptions_inv_step.
  - apply subscriptions_inv_activated.
Qed.

(** ** The mode is chosen once *)

(** X2. The listeners are those [activate] registered, whatever events
    arrive: with several workspace folders the on-demand listener followed
    by the folder-removal listener, otherwise none.  The mode chosen at
    activation never changes. *)
Theorem listeners_fixed context W es :
  listeners (deliver es (activated context W)) = listeners_of context W.
Proof.
  unfold listeners_of. destruct (multi_root W) eqn:Hmode.
  - by apply listeners_multi.
  - rewrite deliver_listeners. by rewrite activated_single.
Qed.

(** ** The scan of the documents that are already open *)

Lemma onDemand_key so oc W d k s :
  is_Some (JSMap.get k (clients (exec (runLanguageClientOnDemand so oc W d) s))) ↔
  is_Some (JSMap.get k (clients s)) ∨
  (qualifies d = true ∧ key_of_document W d = Some k).
Proof.
  unfold exec, key_of_document. destruct (qualifies d) eqn:Hq.
  - destruct (getWorkspaceFolder W (uri d)) as [folder|] eqn:Hf.
    + destruct (JSMap.has (toString (wf_uri folder)) (clients s)) eqn:Hhas.
      * rewrite (onDemand_present _ _ _ _ folder) by done. simpl.
        split; [by left|]. intros [H | [_ [= <-]]]; [done|].
        by apply JSMapFacts.has_get.
      * rewrite (onDemand_create _ _ _ _ folder) by done. simpl.
        destruct (decide (toString (wf_uri folder) = k)) as [<-|Hne].
        -- rewrite JSMapFacts.get_set_eq. split; [by right | by eexists].
        -- rewrite JSMapFacts.get_set_ne by done.
           split; [by left|]. intros [H | [_ [= ?]]]; done.
    + rewrite onDemand_no_folder by done. simpl.
      split; [by left | by intros [H | [_ ?]]].
  - rewrite onDemand_not_qualifying by done. simpl.
    split; [by left | by intros [H | [? _]]].
Qed.

Lemma scan_keys so oc W docs : ∀ s k,
  is_Some (JSMap.get k (clients (exec (forEach (runLanguageClientOnDemand so oc W) docs) s))) ↔
  is_Some (JSMap.get k (clients s)) ∨
  ∃ d, d ∈ docs ∧ qualifies d = true ∧ key_of_document W d = Some k.
Proof.
  induction docs as [|d docs IH]; intros s k.
  - rewrite exec_forEach_nil. split; [by left|].
    intros [H | (d & Hd & _)]; [done | by apply elem_of_nil in Hd].
  - rewrite exec_forEach_cons, IH, onDemand_key. split.
    + intros [[H | [Hq Hk]] | (d' & Hd' & Hq & Hk)].
      * by left.
      * right. exists d. split; [by left | done].
      * right. exists d'. split; [by right | done].
    + intros [H | (d' & Hd' & Hq & Hk)]; [by left; left|].
      apply elem_of_cons in Hd' as [-> | Hd'].
      * left; right. done.
      * right. by exists d'.
Qed.

Lemma freshly_scanned_added so oc folder s :
  JSMap.get (toString (wf_uri folder)) (clients s) = None →
  freshly_scanned s → freshly_scanned (client_added so oc folder s).
Proof.
  intros Hnone [Hlen Hst]. split; simpl.
  - rewrite JSMapFacts.set_absent by done. unfold JSMap.size in *.
    rewrite !length_app. simpl. by rewrite Hlen.
  - intros c x Hx. apply lookup_app_Some in Hx as [Hx | [_ Hx]]; [by eapply Hst|].
    destruct (c - length (heap s)) as [|n]; [|by destruct n].
    by injection Hx as <-.
Qed.

(** X3. In multi-root mode, when [activate] returns, a folder URI has an
    entry exactly when one of the documents that were already open is a
    Python file of that folder; there is one client per entry, each of them
    starting.  With no such document open the registry is empty and no
    client exists. *)
Theorem scan_seeds_registry context W :
  multi_root W = true →
  let s0 := activated context W in
  (∀ k, is_Some (JSMap.get k (clients s0)) ↔
        ∃ d, d ∈ textDocuments W ∧ qualifies d = true ∧ key_of_document W d = Some k) ∧
  length (heap s0) = JSMap.size (clients s0) ∧
  (∀ c x, heap s0 !! c = Some x → client_state x = Starting).
Proof.
  intros Hmode s0. subst s0. split.
  - intros k. rewrite activated_multi by done.
    unfold exec at 1, addListener. simpl. unfold after_scan.
    rewrite scan_keys. split; [|by right].
    intros [[c H] | H]; [done | done].
  - apply (activated_multi_preserves freshly_scanned); try done.
    intros folder s Hs Hnone. by apply freshly_scanned_added.
Qed.

Lemma scan_seeds_registry_witness :
  let W := Example.opened in
  let s0 := activated Example.context W in
  (∀ k, is_Some (JSMap.get k (clients s0)) ↔
        ∃ d, d ∈ textDocuments W ∧ qualifies d = true ∧ key_of_document W d = Some k) ∧
  length (heap s0) = JSMap.size (clients s0) ∧
  (∀ c x, heap s0 !! c = Some x → client_state x = Starting).
Proof.
  apply (scan_seeds_registry Example.context Example.opened). reflexivity.
Defined.

(** ** How clients are configured *)

Lemma lookup_alter_pres {A} (P : A → Prop) (f : A → A) c (h : list A) :
  (∀ x, P x → P (f x)) →
  (∀ c' x, h !! c' = Some x → P x) →
  ∀ c' x, alter f c h !! c' = Some x → P x.
Proof.
  intros Hf Hh c' x Hx. destruct (decide (c = c')) as [<-|Hne].
  - rewrite list_lookup_alter_eq in Hx.
    destruct (h !! c) as [x0|] eqn:Hx0; [|done]. injection Hx as <-.
    eapply Hf, Hh, Hx0.
  - rewrite list_lookup_alter_ne in Hx by done. by eapply Hh.
Qed.

Lemma lookup_stop_all_pres (P : LanguageClient → Prop) (cs : list nat) :
  ∀ h : list LanguageClient,
  (∀ x, P x → P (on_stop x)) →
  (∀ c' x, h !! c' = Some x → P x) →
  ∀ c' x, foldl (λ h c, alter on_stop c h) h cs !! c' = Some x → P x.
Proof.
  induction cs as [|c cs IH]; intros h Hf Hh; simpl; [done|].
  apply IH; [done|]. by apply lookup_alter_pres.
Qed.

Lemma made_by_on_stop so opts x : made_by so opts x → made_by so opts (on_stop x).
Proof.
  intros (co & st & Hco & Hst & ->). unfold on_stop. simpl.
  destruct st; try (by exists co, Stopping); by eexists co, _.
Qed.

Lemma made_by_on_ready so opts x : made_by so opts x → made_by so opts (on_ready x).
Proof.
  intros (co & st & Hco & Hst & ->). unfold on_ready. simpl.
  destruct st; try (by exists co, Running); by eexists co, _.
Qed.

Lemma made_by_on_stopped so opts x : made_by so opts x → made_by so opts (on_stopped x).
Proof.
  intros (co & st & Hco & Hst & ->). unfold on_stopped. simpl.
  destruct st; try (by exists co, Stopped); by eexists co, _.
Qed.

Lemma made_by_on_closed so opts x : made_by so opts x → made_by so opts (on_closed x).
Proof.
  intros (co & st & Hco & Hst & ->). unfold on_closed. simpl.
  destruct st; try (by exists co, Stopped); by eexists co, _.
Qed.

Lemma made_by_started so (opts : LanguageClientOptions → Prop) co :
  opts co → made_by so opts (started_client so co).
Proof. intros Hco. by exists co, Starting. Qed.

Lemma configured_step context W e s :
  configured context W s → configured context W (step e s).
Proof.
  revert e s. apply step_preserves.
  - intros so oc folder s [Hl Hh] Hin _. split; [done|]. simpl.
    intros c x Hx. apply lookup_app_Some in Hx as [Hx | [_ Hx]]; [by eapply Hh|].
    destruct (c - length (heap s)) as [|n]; [|by destruct n].
    injection Hx as <-. rewrite Hl in Hin. unfold listeners_of, options_of_mode in *.
    destruct (multi_root W); [|by apply elem_of_nil in Hin].
    apply elem_of_cons in Hin as [[= -> ->] | Hin].
    + apply made_by_started. by exists folder.
    + apply list_elem_of_singleton in Hin. discriminate Hin.
  - intros k c s [Hl Hh] _. split; [done|]. simpl.
    apply lookup_alter_pres; [apply made_by_on_stop | done].
  - intros c s [Hl Hh]. split; [done|]. simpl.
    apply lookup_alter_pres; [apply made_by_on_ready | done].
  - intros c s [Hl Hh]. split; [done|]. simpl.
    apply lookup_alter_pres; [apply made_by_on_stopped | done].
  - intros c s [Hl Hh]. split; [done|]. simpl.
    apply lookup_alter_pres; [apply made_by_on_closed | done].
  - intros s [Hl Hh]. rewrite step_deactivate. split; [done|]. simpl.
    apply lookup_stop_all_pres; [apply made_by_on_stop | done].
Qed.

Lemma configured_activated context W : configured context W (activated context W).
Proof.
  unfold configured, listeners_of.
  destruct (multi_root W) eqn:Hmode.
  - split; [by apply (listeners_multi context W [])|].
    apply (activated_multi_preserves
             (λ s, ∀ c x, heap s !! c = Some x →
                          made_by (serverOptions_of context) (options_of_mode W) x));
      try done.
    intros folder s Hh _ c x Hx. simpl in Hx.
    apply lookup_app_Some in Hx as [Hx | [_ Hx]]; [by eapply Hh|].
    destruct (c - length (heap s)) as [|n]; [|by destruct n].
    injection Hx as <-. apply made_by_started.
    unfold options_of_mode. rewrite Hmode. by exists folder.
  - rewrite activated_single by done. split; [done|]. simpl.
    intros [|c] x Hx; [|done]. injection Hx as <-. apply made_by_started.
    unfold options_of_mode. by rewrite Hmode.
Qed.

(** X4. Every client that exists, after any events, was created as
    [new LanguageClient('python', 'Pyright', ...)] with the server options
    built from the extension's [server/server.js], synchronizes the
    'python' configuration section and writes to the one 'pyright' output
    channel; in multi-root mode its options are those of some workspace
    folder (selector pattern [fsPath/**/*]), otherwise the folder-less
    options; and it has been started. *)
Theorem clients_configured context W es c x :
  heap (deliver es (activated context W)) !! c = Some x →
  client_id x = "python" ∧ client_name x = "Pyright" ∧
  client_serverOptions x = serverOptions_of context ∧
  outputChannel (client_options x) = pyright_channel ∧
  configurationSection (client_options x) = "python" ∧
  options_of_mode W (client_options x) ∧
  client_state x ≠ Initial.
Proof.
  intros Hx.
  assert (configured context W (deliver es (activated context W))) as [_ Hh].
  { apply (deliver_preserves (configured context W)).
    - intros. by apply configured_step.
    - apply configured_activated. }
  destruct (Hh c x Hx) as (co & st & Hco & Hst & ->). simpl.
  split_and!; try done; unfold options_of_mode in Hco; destruct (multi_root W).
  - by destruct Hco as [folder ->].
  - by rewrite Hco.
  - by destruct Hco as [folder ->].
  - by rewrite Hco.
Qed.

Lemma clients_configured_witness :
  let x := set_state Stopping
             (started_client (serverOptions_of Example.context)
                (onDemand_options pyright_channel Example.R1)) in
  client_id x = "python" ∧ client_name x = "Pyright" ∧
  client_serverOptions x = serverOptions_of Example.context ∧
  outputChannel (client_options x) = pyright_channel ∧
  configurationSection (client_options x) = "python" ∧
  options_of_mode Example.two_roots (client_options x) ∧
  client_state x ≠ Initial.
Proof.
  apply (clients_configured Example.context Example.two_roots Example.reopen 0).
  reflexivity.
Defined.

(** ** What [deactivate] leaves behind *)

Lemma stopped_or_registered context W es c :
  let s := deliver es (activated context W) in
  c < length (heap s) →
  ClientStop c ∈ calls s ∨ c ∈ JSMap.values (clients s).
Proof.
  intros s Hlt. subst s. destruct (multi_root W) eqn:Hmode.
  - assert (registry_inv (deliver es (activated context W))) as [_ _ Ha]
      by (by apply deliver_inv, activated_multi_inv).
    apply lookup_lt_is_Some_2 in Hlt as [x Hx].
    destruct (Ha c x Hx) as [Hstop | (k & _ & Hget)]; [by left|].
    right. apply JSMapFacts.get_Some_elem in Hget.
    by apply (list_elem_of_fmap_2 snd) in Hget.
  - destruct (deliver_no_listeners es (activated context W)) as [Hc Hlen];
      [by rewrite activated_single|].
    rewrite Hlen, activated_single in Hlt by done.
    right. rewrite Hc, activated_single by done. simpl in *.
    replace c with 0 by lia. apply list_elem_of_here.
Qed.

(** X5. Right after [deactivate], in either mode and whatever happened
    before, [stop()] has been called on every client that was ever created:
    on those whose folder was removed when the folder was removed, on all
    the others by [deactivate] itself. *)
Theorem deactivate_stops_every_client context W es c :
  let s' := step Deactivate (deliver es (activated context W)) in
  c < length (heap s') →
  ClientStop c ∈ calls s'.
Proof.
  intros s'. subst s'. rewrite step_deactivate. simpl.
  rewrite stop_all_length. intros Hlt. apply elem_of_app.
  destruct (stopped_or_registered context W es c Hlt) as [Hstop | Hreg]; [by left|].
  right. by apply (list_elem_of_fmap_2 ClientStop).
Qed.

Lemma deactivate_stops_every_client_witness :
  let s' := step Deactivate
              (deliver Example.reopen (activated Example.context Example.two_roots)) in
  ClientStop 0 ∈ calls s' ∧ ClientStop 1 ∈ calls s'.
Proof.
  split.
  - apply (deactivate_stops_every_client Example.context Example.two_roots
             Example.reopen 0). vm_compute. lia.
  - apply (deactivate_stops_every_client Example.context Example.two_roots
             Example.reopen 1). vm_compute. lia.
Defined.

(** ** A folders-changed event *)

Lemma stopRemovedFolder_get folder k s :
  JSMap.get k (clients (exec (stopRemovedFolder folder) s)) =
  if decide (toString (wf_uri folder) = k) then None else JSMap.get k (clients s).
Proof.
  destruct (stopRemovedFolder_cases folder s) as [[Hnone ->] | (c & Hget & ->)];
    case_decide; subst; simpl; try done.
  - apply JSMapFacts.get_delete_eq.
  - by apply JSMapFacts.get_delete_ne.
Qed.

Lemma stopRemovedFolders_get folders : ∀ s k,
  JSMap.get k (clients (exec (forEach stopRemovedFolder folders) s)) =
  if decide (k ∈ (λ folder, toString (wf_uri folder)) <$> folders)
  then None else JSMap.get k (clients s).
Proof.
  induction folders as [|folder folders IH]; intros s k.
  - rewrite exec_forEach_nil. by rewrite decide_False by apply not_elem_of_nil.
  - rewrite exec_forEach_cons, IH, stopRemovedFolder_get, fmap_cons.
    destruct (decide (k ∈ (λ f, toString (wf_uri f)) <$> folders)) as [Hin|Hnin].
    + rewrite decide_True; [done | by right].
    + destruct (decide (toString (wf_uri folder) = k)) as [Heq|Hne].
      * rewrite decide_True; [done | subst; by left].
      * rewrite decide_False; [done|].
        intros Hk. apply elem_of_cons in Hk as [Hk|Hk]; by subst.
Qed.

Lemma stopRemovedFolder_heap folder s :
  heap (exec (stopRemovedFolder folder) s) = heap s ∨
  ∃ c, heap (exec (stopRemovedFolder folder) s) = alter on_stop c (heap s).
Proof.
  destruct (stopRemovedFolder_cases folder s) as [[_ ->] | (c & _ & ->)];
    [by left | right; by exists c].
Qed.

Lemma stopRemovedFolder_inactive folder c s :
  (∀ x, heap s !! c = Some x → ¬ active x) →
  ∀ x, heap (exec (stopRemovedFolder folder) s) !! c = Some x → ¬ active x.
Proof.
  intros Hs x. destruct (stopRemovedFolder_heap folder s) as [-> | [c' ->]]; [apply Hs|].
  intros Hx. destruct (decide (c' = c)) as [->|Hne].
  - rewrite list_lookup_alter_eq in Hx. destruct (heap s !! c) as [x0|]; [|done].
    injection Hx as <-. apply on_stop_not_active.
  - rewrite list_lookup_alter_ne in Hx by done. by apply Hs.
Qed.

Lemma stopRemovedFolders_stop folders : ∀ s k c,
  k ∈ (λ folder, toString (wf_uri folder)) <$> folders →
  JSMap.get k (clients s) = Some c →
  ∀ x, heap (exec (forEach stopRemovedFolder folders) s) !! c = Some x → ¬ active x.
Proof.
  induction folders as [|folder folders IH]; intros s k c Hk Hget.
  - by apply elem_of_nil in Hk.
  - rewrite exec_forEach_cons.
    destruct (decide (toString (wf_uri folder) = k)) as [Heq|Hne].
    + apply (forEach_preserves (λ s', ∀ x, heap s' !! c = Some x → ¬ active x)).
      * intros f s'. apply stopRemovedFolder_inactive.
      * subst k. unfold exec. rewrite (stopRemovedFolder_present _ c) by done. simpl.
        intros x Hx. rewrite list_lookup_alter_eq in Hx.
        destruct (heap s !! c) as [x0|]; [|done]. injection Hx as <-.
        apply on_stop_not_active.
    + rewrite fmap_cons in Hk. apply elem_of_cons in Hk as [Hk|Hk]; [by subst|].
      apply (IH _ k); [done|].
      rewrite stopRemovedFolder_get. by rewrite decide_False.
Qed.

Lemma stopRemovedFolders_length folders s :
  length (heap (exec (forEach stopRemovedFolder folders) s)) = length (heap s).
Proof.
  apply (forEach_preserves (λ s', length (heap s') = length (heap s))); [|done].
  intros folder s' Hs'.
  destruct (stopRemovedFolder_heap folder s') as [-> | [c ->]]; [done|].
  by rewrite length_alter.
Qed.

(** X6. In multi-root mode a folders-changed event removes from the
    registry exactly the entries of the folders it lists as removed, however
    many they are, and leaves every other key as it was; each client whose
    entry it removed is no longer starting or running afterwards; and it
    creates no client. *)
Theorem folders_changed_effect context W0 es event :
  multi_root W0 = true →
  let s := deliver es (activated context W0) in
  let s' := step (DidChangeWorkspaceFolders event) s in
  (∀ k, JSMap.get k (clients s') =
        if decide (k ∈ removed_keys event) then None else JSMap.get k (clients s)) ∧
  (∀ k c x, k ∈ removed_keys event → JSMap.get k (clients s) = Some c →
            heap s' !! c = Some x → ¬ active x) ∧
  length (heap s') = length (heap s).
Proof.
  intros Hmode s s'. subst s'.
  rewrite (step_folders_multi (serverOptions_of context) pyright_channel)
    by (by apply listeners_multi).
  unfold stopRemovedFolders, removed_keys. split_and!.
  - intros k. apply stopRemovedFolders_get.
  - intros k c x Hk Hget. by apply (stopRemovedFolders_stop _ _ k).
  - apply stopRemovedFolders_length.
Qed.

Lemma folders_changed_effect_witness :
  let s := deliver [DidOpenTextDocument Example.two_roots Example.a_py;
                    DidOpenTextDocument Example.two_roots Example.b_py]
             (activated Example.context Example.two_roots) in
  let s' := step (DidChangeWorkspaceFolders Example.remove_both) s in
  (∀ k, JSMap.get k (clients s') =
        if decide (k ∈ removed_keys Example.remove_both)
        then None else JSMap.get k (clients s)) ∧
  ¬ active (set_state Stopping
              (started_client (serverOptions_of Example.context)
                 (onDemand_options pyright_channel Example.R2))) ∧
  length (heap s') = length (heap s).
Proof.
  pose proof (folders_changed_effect Example.context Example.two_roots
                [DidOpenTextDocument Example.two_roots Example.a_py;
                 DidOpenTextDocument Example.two_roots Example.b_py]
                Example.remove_both eq_refl) as (Hget & Hstop & Hlen).
  split_and!; [exact Hget | | exact Hlen].
  apply (Hstop "file:///w/r2" 1).
  - apply (bool_decide_unpack _). vm_compute. exact I.
  - reflexivity.
  - reflexivity.
Defined.

(** ** Creating a client on demand *)

(** X7. In multi-root mode, a document-opened event for a Python file of
    a workspace folder that has no entry appends one entry for the folder's
    URI at the end of the registry, holding a new client; the client is
    created with the folder's options, started, and its disposable and
    progress reporter are pushed to the subscriptions, in this order of
    calls. *)
Theorem on_demand_creates context W0 es W d folder :
  multi_root W0 = true →
  qualifies d = true →
  getWorkspaceFolder W (uri d) = Some folder →
  let s := deliver es (activated context W0) in
  let k := toString (wf_uri folder) in
  let c := length (heap s) in
  JSMap.has k (clients s) = false →
  let s' := step (DidOpenTextDocument W d) s in
  clients s' = clients s ++ [(k, c)] ∧
  heap s' = heap s ++
    [started_client (serverOptions_of context) (onDemand_options pyright_channel folder)] ∧
  subscriptions s' = subscriptions s ++ [ClientDisposable c; ProgressReporting c] ∧
  calls s' = calls s ++
    [NewLanguageClient c; ClientStart c; SubscriptionsPush (ClientDisposable c);
     NewProgressReporting c; SubscriptionsPush (ProgressReporting c); ClientsSet k c].
Proof.
  intros Hmode Hq Hf s k c Hhas s'. subst s'.
  rewrite (step_open_multi (serverOptions_of context) pyright_channel)
    by (by apply listeners_multi).
  unfold exec. rewrite (onDemand_create _ _ _ _ folder) by done. simpl.
  split_and!; try done.
  apply JSMapFacts.set_absent. by apply JSMapFacts.has_false_get.
Qed.

Lemma on_demand_creates_witness :
  let s := deliver [DidOpenTextDocument Example.two_roots Example.a_py]
             (activated Example.context Example.two_roots) in
  let s' := step (DidOpenTextDocument Example.two_roots Example.b_py) s in
  clients s' = clients s ++ [("file:///w/r2", 1)] ∧
  heap s' = heap s ++
    [started_client (serverOptions_of Example.context)
       (onDemand_options pyright_channel Example.R2)] ∧
  subscriptions s' = subscriptions s ++ [ClientDisposable 1; ProgressReporting 1] ∧
  calls s' = calls s ++
    [NewLanguageClient 1; ClientStart 1; SubscriptionsPush (ClientDisposable 1);
     NewProgressReporting 1; SubscriptionsPush (ProgressReporting 1);
     ClientsSet "file:///w/r2" 1].
Proof.
  apply (on_demand_creates Example.context Example.two_roots
           [DidOpenTextDocument Example.two_roots Example.a_py]
           (Example.two_roots) (Example.b_py) (Example.R2)); reflexivity.
Defined.

(** ** Client objects are never dropped *)

Lemma objects_kept_refl h : objects_kept h h.
Proof. intros c x Hx. by exists x. Qed.

Lemma objects_kept_trans h1 h2 h3 :
  objects_kept h1 h2 → objects_kept h2 h3 → objects_kept h1 h3.
Proof.
  intros H12 H23 c x Hx.
  destruct (H12 c x Hx) as (x2 & Hx2 & Ho2 & Hs2).
  destruct (H23 c x2 Hx2) as (x3 & Hx3 & Ho3 & Hs3).
  exists x3. split_and!; [done | congruence | congruence].
Qed.

Lemma objects_kept_app h h' : objects_kept h (h ++ h').
Proof. intros c x Hx. exists x. split; [by apply lookup_app_l_Some | done]. Qed.

Lemma objects_kept_alter (f : LanguageClient → LanguageClient) c h :
  (∀ x, client_options (f x) = client_options x ∧
        client_serverOptions (f x) = client_serverOptions x) →
  objects_kept h (alter f c h).
Proof.
  intros Hf c' x Hx. destruct (decide (c = c')) as [<-|Hne].
  - exists (f x). rewrite list_lookup_alter_eq, Hx. split; [done | apply Hf].
  - exists x. by rewrite list_lookup_alter_ne.
Qed.

Lemma on_stop_options x :
  client_options (on_stop x) = client_options x ∧
  client_serverOptions (on_stop x) = client_serverOptions x.
Proof. unfold on_stop. by destruct (client_state x). Qed.

Lemma on_ready_options x :
  client_options (on_ready x) = client_options x ∧
  client_serverOptions (on_ready x) = client_serverOptions x.
Proof. unfold on_ready. by destruct (client_state x). Qed.

Lemma on_stopped_options x :
  client_options (on_stopped x) = client_options x ∧
  client_serverOptions (on_stopped x) = client_serverOptions x.
Proof. unfold on_stopped. by destruct (client_state x). Qed.

Lemma on_closed_options x :
  client_options (on_closed x) = client_options x ∧
  client_serverOptions (on_closed x) = client_serverOptions x.
Proof. unfold on_closed. by destruct (client_state x). Qed.

Lemma objects_kept_stop_all (cs : list nat) : ∀ h : list LanguageClient,
  objects_kept h (foldl (λ h c, alter on_stop c h) h cs).
Proof.
  induction cs as [|c cs IH]; intros h; simpl; [apply objects_kept_refl|].
  eapply objects_kept_trans; [|apply IH].
  apply objects_kept_alter, on_stop_options.
Qed.

Lemma step_objects_kept e s : objects_kept (heap s) (heap (step e s)).
Proof.
  apply (step_preserves (λ s', objects_kept (heap s) (heap s'))).
  - intros so oc folder s' Hs' _ _. simpl.
    eapply objects_kept_trans; [done | apply objects_kept_app].
  - intros k c s' Hs' _. simpl.
    eapply objects_kept_trans; [done | apply objects_kept_alter, on_stop_options].
  - intros c s' Hs'. simpl.
    eapply objects_kept_trans; [done | apply objects_kept_alter, on_ready_options].
  - intros c s' Hs'. simpl.
    eapply objects_kept_trans; [done | apply objects_kept_alter, on_stopped_options].
  - intros c s' Hs'. simpl.
    eapply objects_kept_trans; [done | apply objects_kept_alter, on_closed_options].
  - intros s' Hs'. rewrite step_deactivate. simpl.
    eapply objects_kept_trans; [done | apply objects_kept_stop_all].
  - apply objects_kept_refl.
Qed.

Lemma step_heap_length e s :
  length (heap (step e s)) = length (heap s) ∨
  (length (heap (step e s)) = S (length (heap s)) ∧
   ∃ W d, e = DidOpenTextDocument W d ∧ qualifies d = true ∧
          is_Some (key_of_document W d)).
Proof.
  destruct e as [W d|event|c|c|c|].
  - destruct (step_open_cases W d s) as [-> | (so & oc & folder & Hq & Hf & _ & ->)];
      [by left|].
    right. split.
    + simpl. rewrite length_app. simpl. lia.
    + exists W, d. split_and!; try done. unfold key_of_document. rewrite Hf. by eexists.
  - left. unfold step.
    apply (forEach_preserves (λ s', length (heap s') = length (heap s))); [|done].
    intros [so oc|] s' Hs'; [done|]. unfold notify, stopRemovedFolders.
    by rewrite stopRemovedFolders_length.
  - left. simpl. by rewrite length_alter.
  - left. simpl. by rewrite length_alter.
  - left. simpl. by rewrite length_alter.
  - left. rewrite step_deactivate. simpl. by rewrite stop_all_length.
Qed.

(** X8. In any state and with any listeners registered, one event never
    drops a client object and never changes the options or server options a
    client was created with; it creates at most one client, and it creates
    one only if it is a document-opened event for a document with
    languageId 'python' and scheme 'file' that lies in a workspace folder. *)
Theorem events_keep_clients e s :
  objects_kept (heap s) (heap (step e s)) ∧
  (length (heap (step e s)) = length (heap s) ∨
   (length (heap (step e s)) = S (length (heap s)) ∧
    ∃ W d, e = DidOpenTextDocument W d ∧
           languageId d = "python" ∧ scheme (uri d) = "file" ∧
           is_Some (key_of_document W d))).
Proof.
  split; [apply step_objects_kept|].
  destruct (step_heap_length e s) as [H | [H (W & d & -> & Hq & Hk)]]; [by left|].
  right. split; [done|]. exists W, d.
  unfold qualifies in Hq. apply andb_true_iff in Hq as [Hl Hs].
  apply String.eqb_eq in Hl, Hs. done.
Qed.

(** ** The registry holds no stopped client until [deactivate] *)

Lemma stop_not_in_creation c n k :
  ClientStop c ∉ [NewLanguageClient n; ClientStart n;
                  SubscriptionsPush (ClientDisposable n); NewProgressReporting n;
                  SubscriptionsPush (ProgressReporting n); ClientsSet k n].
Proof.
  intros H. repeat (apply elem_of_cons in H as [H|H]; [discriminate H|]).
  by apply elem_of_nil in H.
Qed.

Lemma unstopped_added so oc folder s :
  entries_unstopped s → stops_known s →
  entries_unstopped (client_added so oc folder s) ∧
  stops_known (client_added so oc folder s).
Proof.
  intros He Hk. split.
  - intros k c Hget Hstop. simpl in *.
    apply elem_of_app in Hstop as [Hstop | Hstop];
      [|by apply stop_not_in_creation in Hstop].
    destruct (decide (toString (wf_uri folder) = k)) as [<-|Hne].
    + rewrite JSMapFacts.get_set_eq in Hget. injection Hget as <-.
      apply Hk in Hstop. lia.
    + rewrite JSMapFacts.get_set_ne in Hget by done. by apply (He k c).
  - intros c Hstop. simpl in *. rewrite length_app. simpl.
    apply elem_of_app in Hstop as [Hstop | Hstop];
      [|by apply stop_not_in_creation in Hstop].
    apply Hk in Hstop. lia.
Qed.

Lemma unstopped_removed k c s :
  registry_inv s → JSMap.get k (clients s) = Some c →
  entries_unstopped s → stops_known s →
  entries_unstopped (client_removed k c s) ∧
  stops_known (client_removed k c s).
Proof.
  intros [_ Hentry _] Hget He Hk. split.
  - intros k' c' Hget' Hstop. simpl in *.
    destruct (decide (k = k')) as [<-|Hne];
      [by rewrite JSMapFacts.get_delete_eq in Hget'|].
    rewrite JSMapFacts.get_delete_ne in Hget' by done.
    apply elem_of_app in Hstop as [Hstop | Hstop]; [by apply (He k' c')|].
    apply elem_of_cons in Hstop as [Hstop | Hstop]; [discriminate Hstop|].
    apply list_elem_of_singleton in Hstop. injection Hstop as ->.
    destruct (Hentry k c Hget) as (x1 & Hx1 & Hr1).
    destruct (Hentry k' c Hget') as (x2 & Hx2 & Hr2). congruence.
  - intros c' Hstop. simpl in *. rewrite length_alter.
    apply elem_of_app in Hstop as [Hstop | Hstop]; [by apply Hk|].
    apply elem_of_cons in Hstop as [Hstop | Hstop]; [discriminate Hstop|].
    apply list_elem_of_singleton in Hstop. injection Hstop as ->.
    destruct (Hentry k c Hget) as (x & Hx & _). by apply lookup_lt_Some in Hx.
Qed.

Lemma multi_of_listener context W l : l ∈ listeners_of context W → multi_root W = true.
Proof.
  unfold listeners_of. destruct (multi_root W); [done|].
  intros H. by apply elem_of_nil in H.
Qed.

Lemma live_inv_alter context W (f : LanguageClient → LanguageClient) c s :
  (∀ x, root_of (f x) = root_of x) →
  live_inv context W s → live_inv context W (with_heap (alter f c (heap s)) s).
Proof.
  intros Hf (He & Hk & Hl & Hinv). split_and!; try done.
  - intros c' Hstop. simpl. rewrite length_alter. by apply Hk.
  - intros Hmode. unfold registry_inv. simpl. by apply coherent_alter, Hinv.
Qed.

Lemma live_inv_step context W e s :
  is_deactivate e = false → live_inv context W s → live_inv context W (step e s).
Proof.
  revert e s. apply step_preserves_live.
  - intros so oc folder s (He & Hk & Hl & Hinv) _ Hnone.
    destruct (unstopped_added so oc folder s He Hk) as [He' Hk'].
    split_and!; try done.
    intros Hmode. unfold registry_inv. simpl. by apply coherent_added, Hinv.
  - intros k c s (He & Hk & Hl & Hinv) Hin Hget.
    rewrite Hl in Hin. apply multi_of_listener in Hin.
    destruct (unstopped_removed k c s (Hinv Hin) Hget He Hk) as [He' Hk'].
    split_and!; try done.
    intros _. unfold registry_inv. simpl. by apply coherent_removed, Hinv.
  - intros c s. apply live_inv_alter, on_ready_root.
  - intros c s. apply live_inv_alter, on_stopped_root.
  - intros c s. apply live_inv_alter, on_closed_root.
Qed.

Lemma live_inv_activated context W : live_inv context W (activated context W).
Proof.
  assert (entries_unstopped (activated context W) ∧ stops_known (activated context W))
    as [He Hk].
  { destruct (multi_root W) eqn:Hmode.
    - apply (activated_multi_preserves (λ s, entries_unstopped s ∧ stops_known s));
        try done.
      + split.
        * intros k c Hget. discriminate Hget.
        * intros c Hstop. simpl in Hstop.
          repeat (apply elem_of_cons in Hstop as [Hstop|Hstop]; [discriminate Hstop|]).
          by apply elem_of_nil in Hstop.
      + intros folder s [He Hk] _. by apply unstopped_added.
      + intros s [He Hk]. unfold exec, addListener. split.
        * intros k c Hget Hstop. simpl in *.
          apply elem_of_app in Hstop as [Hstop | Hstop]; [by apply (He k c)|].
          apply list_elem_of_singleton in Hstop. discriminate Hstop.
        * intros c Hstop. simpl in *.
          apply elem_of_app in Hstop as [Hstop | Hstop]; [by apply Hk|].
          apply list_elem_of_singleton in Hstop. discriminate Hstop.
    - rewrite activated_single by done. split.
      + intros k c _ Hstop. simpl in Hstop.
        repeat (apply elem_of_cons in Hstop as [Hstop|Hstop]; [discriminate Hstop|]).
        by apply elem_of_nil in Hstop.
      + intros c Hstop. simpl in Hstop.
        repeat (apply elem_of_cons in Hstop as [Hstop|Hstop]; [discriminate Hstop|]).
        by apply elem_of_nil in Hstop. }
  split_and!; [done | done | |].
  - apply (listeners_fixed context W []).
  - apply activated_multi_inv.
Qed.

Lemma live_inv_deliver context W es : ∀ s,
  existsb is_deactivate es = false →
  live_inv context W s → live_inv context W (deliver es s).
Proof.
  induction es as [|e es IH]; intros s Hes Hs; simpl in *; [done|].
  apply orb_false_iff in Hes as [He Hes].
  by apply IH, live_inv_step.
Qed.

(** X9. As long as [deactivate] has not been called, in either mode, no
    entry of the registry holds a client on which [stop()] has been called:
    the extension deletes the entry of every client it asks to stop. *)
Theorem entries_not_stopped context W es k c :
  existsb is_deactivate es = false →
  let s := deliver es (activated context W) in
  JSMap.get k (clients s) = Some c →
  ClientStop c ∉ calls s.
Proof.
  intros Hes s Hget.
  assert (live_inv context W s) as [He _]
    by (by apply live_inv_deliver; [|apply live_inv_activated]).
  by apply (He k c).
Qed.

Lemma entries_not_stopped_witness :
  ClientStop 1 ∉
    calls (deliver Example.reopen (activated Example.context Example.two_roots)).
Proof.
  apply (entries_not_stopped Example.context Example.two_roots Example.reopen
           "file:///w/r1" 1); reflexivity.
Defined.

(** ** Removing twice *)

Lemma forEach_noop_in {A} (f : A → M unit) (l : list A) s :
  (∀ x, x ∈ l → f x s = (tt, s)) → forEach f l s = (tt, s).
Proof.
  induction l as [|x l IH]; intros Hf; simpl; [done|].
  unfold mbind, M_bind. rewrite Hf by (by left). apply IH.
  intros y Hy. apply Hf. by right.
Qed.

(** X10. In multi-root mode, delivering the same folders-changed event a
    second time changes nothing: the folders it removes have no entry any
    more, so nothing is deleted and no client is asked to stop again. *)
Theorem removal_idempotent context W0 es event :
  multi_root W0 = true →
  let s := deliver es (activated context W0) in
  let s' := step (DidChangeWorkspaceFolders event) s in
  step (DidChangeWorkspaceFolders event) s' = s'.
Proof.
  intros Hmode s s'.
  pose proof (folders_changed_effect context W0 es event Hmode) as (Hget & _ & _).
  fold s in Hget. fold s' in Hget.
  rewrite (step_folders_multi (serverOptions_of context) pyright_channel).
  - unfold exec, stopRemovedFolders. rewrite forEach_noop_in; [done|].
    intros folder Hin. apply stopRemovedFolder_absent.
    rewrite Hget, decide_True; [done|].
    unfold removed_keys. by apply (list_elem_of_fmap_2 (λ f, toString (wf_uri f))).
  - unfold s'. rewrite step_listeners. by apply listeners_multi.
Qed.

Lemma removal_idempotent_witness :
  let s := deliver [DidOpenTextDocument Example.two_roots Example.a_py;
                    DidOpenTextDocument Example.two_roots Example.b_py]
             (activated Example.context Example.two_roots) in
  let s' := step (DidChangeWorkspaceFolders Example.remove_both) s in
  step (DidChangeWorkspaceFolders Example.remove_both) s' = s'.
Proof.
  apply (removal_idempotent Example.context Example.two_roots
           [DidOpenTextDocument Example.two_roots Example.a_py;
            DidOpenTextDocument Example.two_roots Example.b_py]).
  reflexivity.
Defined.

(** ** A client is registered once *)

Lemma values_delete_subseteq (k : string) (m : JSMap.t nat) c :
  c ∈ JSMap.values (JSMap.delete k m) → c ∈ JSMap.values m.
Proof.
  unfold JSMap.values. intros Hin.
  apply list_elem_of_fmap in Hin as [[k' c'] [-> Hin]].
  apply JSMapFacts.elem_of_delete in Hin as [_ Hin].
  by apply (list_elem_of_fmap_2 snd) in Hin.
Qed.

Lemma unregistered_step c e s :
  c < length (heap s) → c ∉ JSMap.values (clients s) →
  c < length (heap (step e s)) ∧ c ∉ JSMap.values (clients (step e s)).
Proof.
  intros Hlt Hnot.
  apply (step_preserves
           (λ s', c < length (heap s') ∧ c ∉ JSMap.values (clients s'))); [..|done].
  - intros so oc folder s' [Hlt' Hnot'] _ Hnone. simpl. split.
    + rewrite length_app. lia.
    + rewrite JSMapFacts.set_absent by done. unfold JSMap.values in *.
      rewrite fmap_app. simpl. intros Hin.
      apply elem_of_app in Hin as [Hin | Hin]; [done|].
      apply list_elem_of_singleton in Hin. lia.
  - intros k c' s' [Hlt' Hnot'] _. simpl. split.
    + by rewrite length_alter.
    + intros Hin. by apply Hnot', (values_delete_subseteq k).
  - intros c' s' [Hlt' Hnot']. simpl. by rewrite length_alter.
  - intros c' s' [Hlt' Hnot']. simpl. by rewrite length_alter.
  - intros c' s' [Hlt' Hnot']. simpl. by rewrite length_alter.
  - intros s' [Hlt' Hnot']. rewrite step_deactivate. simpl.
    by rewrite stop_all_length.
Qed.

(** X11. A client that exists and is not in the registry never enters it
    again, whatever events follow, in any state and with any listeners: a
    client whose folder was removed stays out, and a folder that comes back
    always gets a client that did not exist before. *)
Theorem removed_client_never_registered c es s :
  c < length (heap s) →
  c ∉ JSMap.values (clients s) →
  c ∉ JSMap.values (clients (deliver es s)).
Proof.
  revert s. induction es as [|e es IH]; intros s Hlt Hnot; simpl; [done|].
  destruct (unregistered_step c e s Hlt Hnot) as [Hlt' Hnot']. by apply IH.
Qed.

Lemma removed_client_never_registered_witness :
  0 ∉ JSMap.values
        (clients (deliver [DidChangeWorkspaceFolders Example.add_R1;
                           DidOpenTextDocument Example.two_roots Example.a_py;
                           Deactivate]
                    (deliver [DidOpenTextDocument Example.two_roots Example.a_py;
                              DidChangeWorkspaceFolders Example.remove_R1]
                       (activated Example.context Example.two_roots)))).
Proof.
  apply (removed_client_never_registered 0).
  - vm_compute. lia.
  - apply (bool_decide_unpack _). vm_compute. exact I.
Defined.
